(** * osc.py: address points joined to CityJSON building footprints

    A shallow embedding of [src/osc.py].  The script loads a table of
    address points (UPRN) and a CityJSON document, rebuilds one footprint
    polygon per city object from the nested [boundaries] arrays, joins the
    points to the polygons that contain them, and writes the matched
    identifiers back into every city object's attribute bag.

    Python values that come out of the JSON parser are embedded as the
    inductive type [value]; exceptions are embedded as the [Raise] branch
    of [result].  Dictionaries are association lists, because the program
    iterates over them in insertion order; the pandas [Series] produced by
    the group-by is a [gmap], because it is only ever queried by key.
    Interpreter resource limits (recursion depth, memory) are outside the
    embedding.

    The script calls into external libraries.  What the geometry
    constructor [Polygon] accepts, the point-in-polygon test and the
    coordinate transform are parameters of the development; the frames
    and the join are modelled from the specification, and each such
    definition says so. *)

From Stdlib Require Import ZArith SpecFloat.
From stdpp Require Import list strings gmap.

Open Scope Z_scope.

(** ** Python values *)

(** What [json.load] can produce.  A [float] is its IEEE 754 datum; a
    [str] is the sequence of its characters; a [dict] keeps its items in
    insertion order and its keys are strings, as in every parsed JSON
    object. *)
#[local] Unset Elimination Schemes.
Inductive value : Type :=
| VNone
| VBool (b : bool)
| VInt (z : Z)
| VFloat (f : spec_float)
| VStr (s : string)
| VList (l : list value)
| VDict (d : list (string * value)).
#[local] Set Elimination Schemes.

(** Induction over [value] with the hypotheses for the elements of a list
    and of a dictionary. *)
Section value_induction.
  Variable P : value -> Prop.
  Hypothesis HNone : P VNone.
  Hypothesis HBool : forall b, P (VBool b).
  Hypothesis HInt : forall z, P (VInt z).
  Hypothesis HFloat : forall f, P (VFloat f).
  Hypothesis HStr : forall s, P (VStr s).
  Hypothesis HList : forall l, Forall P l -> P (VList l).
  Hypothesis HDict : forall d, Forall (fun kv => P kv.2) d -> P (VDict d).

Fixpoint value_nested_ind (v : value) : P v :=
  match v with
  | VNone => HNone
  | VBool b => HBool b
  | VInt z => HInt z
  | VFloat f => HFloat f
  | VStr s => HStr s
  | VList l =>
      HList l ((fix elems (l : list value) : Forall P l :=
                  match l with
                  | [] => List.Forall_nil P
                  | x :: l' => List.Forall_cons P x l' (value_nested_ind x) (elems l')
                  end) l)
  | VDict d =>
      HDict d ((fix items (d : list (string * value)) : Forall (fun kv => P kv.2) d :=
                  match d with
                  | [] => List.Forall_nil _
                  | kv :: d' => List.Forall_cons _ kv d' (value_nested_ind kv.2) (items d')
                  end) d)
  end.
End value_induction.

(** ** Exceptions *)

(** The exceptions the modelled code can raise.  [ValueError msg arg] is
    the error whose message is the f-string [msg] followed by the
    formatted [arg]. *)
Inductive exn : Type :=
| IndexError
| KeyError (key : value)
| TypeError
| AttributeError
| ValueError (msg : string) (arg : value).

Inductive result (A : Type) : Type :=
| Ok (a : A)
| Raise (e : exn).
Arguments Ok {A} a.
Arguments Raise {A} e.

#[global] Instance result_ret : MRet result := fun A a => Ok a.
#[global] Instance result_bind : MBind result := fun A B f m =>
  match m with
  | Ok a => f a
  | Raise e => Raise e
  end.

Definition is_Ok {A} (r : result A) : Prop := exists a, r = Ok a.
Definition is_Raise {A} (r : result A) : Prop := exists e, r = Raise e.

(** ** Built-in operations *)

Definition is_list (v : value) : bool :=
  match v with VList _ => true | _ => false end.

(** [seq[i]] on a sequence of length [n]: a negative [i] is first
    shifted by [n]; what is then outside [0 .. n-1] raises [IndexError]. *)
Definition seq_index {A} (l : list A) (i : Z) : result A :=
  let n := Z.of_nat (length l) in
  let k := if i <? 0 then i + n else i in
  if (k <? 0) || (n <=? k) then Raise IndexError
  else match l !! Z.to_nat k with
       | Some x => Ok x
       | None => Raise IndexError
       end.

Fixpoint dict_get (k : string) (d : list (string * value)) : option value :=
  match d with
  | [] => None
  | (k', v) :: d' => if String.eqb k' k then Some v else dict_get k d'
  end.

(** [d[k] = v] on a dictionary: an existing key keeps its position, a new
    key is appended. *)
Fixpoint dict_set (k : string) (v : value) (d : list (string * value))
  : list (string * value) :=
  match d with
  | [] => [(k, v)]
  | (k', v') :: d' =>
      if String.eqb k' k then (k', v) :: d' else (k', v') :: dict_set k v d'
  end.

Definition chars (s : string) : list value :=
  map (fun c => VStr (String c EmptyString)) (String.list_ascii_of_string s).

(** [o[k]] *)
Definition py_getitem (o k : value) : result value :=
  match o with
  | VList l =>
      match k with
      | VInt i => seq_index l i
      | VBool b => seq_index l (Z.b2z b)
      | _ => Raise TypeError
      end
  | VStr s =>
      match k with
      | VInt i => seq_index (chars s) i
      | VBool b => seq_index (chars s) (Z.b2z b)
      | _ => Raise TypeError
      end
  | VDict d =>
      match k with
      | VStr key =>
          match dict_get key d with
          | Some v => Ok v
          | None => Raise (KeyError k)
          end
      | VList _ | VDict _ => Raise TypeError
      | _ => Raise (KeyError k)
      end
  | _ => Raise TypeError
  end.

(** [o[key] = v] for a string key. *)
Definition py_setitem (o : value) (key : string) (v : value) : result value :=
  match o with
  | VDict d => Ok (VDict (dict_set key v d))
  | _ => Raise TypeError
  end.

(** [for x in o] *)
Definition py_iter (o : value) : result (list value) :=
  match o with
  | VList l => Ok l
  | VStr s => Ok (chars s)
  | VDict d => Ok (map (fun kv => VStr kv.1) d)
  | _ => Raise TypeError
  end.

(** [o.items()] *)
Definition py_items (o : value) : result (list (string * value)) :=
  match o with
  | VDict d => Ok d
  | _ => Raise AttributeError
  end.

(** [v == s] for a string literal [s]. *)
Definition py_eq_str (v : value) (s : string) : bool :=
  match v with
  | VStr s' => String.eqb s' s
  | _ => false
  end.

Definition py_truthy (v : value) : bool :=
  match v with
  | VNone => false
  | VBool b => b
  | VInt z => negb (z =? 0)
  | VFloat f => match f with S754_zero _ => false | _ => true end
  | VStr s => negb (String.eqb s "")
  | VList l => match l with [] => false | _ :: _ => true end
  | VDict d => match d with [] => false | _ :: _ => true end
  end.

(** [a or b] *)
Definition py_or (a b : value) : value :=
  if py_truthy a then a else b.

(** ** Geometry objects *)

(** Modelled from the spec: [shapely.geometry.Polygon] is a class of an
    external library; a polygon is the "ordered sequence of projected
    coordinate pairs describing the resolved exterior ring (closed or
    implicitly closed)".  A polygon the constructor has built is
    represented by the coordinates the constructor was handed, in their
    order; what the library derives from them (closing the ring, areas)
    is not part of the embedding. *)
Record Polygon : Type := mkPolygon { shell : list value }.

(** Modelled from the spec: [shapely.geometry.Point] is a class of an
    external library; a point is a "coordinate pair", x first. *)
Record Point : Type := mkPoint { point_x : value; point_y : value }.

(** ** Frames and documents *)

Definition TARGET_CRS : Z := 3857.

(** Modelled from the spec: [geopandas.GeoDataFrame] is a class of an
    external library; a frame is a "collection of (point,
    point-identifier) pairs" or of "(polygon, polygon-identifier) pairs":
    rows of column data with one geometry each, in the order in which
    they were supplied, and the frame's coordinate reference system (an
    EPSG code). *)
Record GeoDataFrame (A G : Type) : Type := mkGeoDataFrame {
  rows : list (A * G);
  crs : Z
}.
Arguments mkGeoDataFrame {A G} rows crs.
Arguments rows {A G} g.
Arguments crs {A G} g.

(** Modelled from the spec: the tabular loader ([pd.read_csv]) is
    external and "supplies rows with at least fields identifier,
    longitude, latitude, one row per address"; the fields carry the column
    names the program reads. *)
Record AddressRow : Type := mkAddressRow {
  UPRN : value;
  LONGITUDE : value;
  LATITUDE : value
}.

(** Modelled from the spec: the city-model object that [cityjson.load]
    returns is an external class; it exposes the parsed document [j] (with
    the shared vertex table and the mapping from building identifier to
    building record) and "a settable coordinate-system tag". *)
Record CityJSON : Type := mkCityJSON {
  j : value;
  epsg : option Z
}.

(** ** The geometry constructor *)

Section Shapely.
(** [Polygon(coordinates)] runs the constructor of an external library,
    which validates its argument: it raises for a sequence too short to
    form a ring and for entries that are not coordinates.  What it
    accepts is the library's and is not in the source: a parameter.
    [Polygon_raises coordinates] is the exception the constructor raises
    on [coordinates], and [None] when it returns. *)
Variable Polygon_raises : list value -> option exn.

(** [Polygon(coordinates)]: the exception of the library, or the polygon
    built from [coordinates]. *)
Definition Polygon_new (coordinates : list value) : result Polygon :=
  match Polygon_raises coordinates with
  | None => Ok (mkPolygon coordinates)
  | Some e => Raise e
  end.

(** ** The boundary resolver: [get_exterior_ring] *)

(** The [else] branch of [get_exterior_ring]:
    [[
        coordinates = [vertices[index] for index in boundaries]
        return Polygon(coordinates)
    ]] *)
Definition exterior_ring_of_leaf (vertices boundaries : value) : result Polygon :=
  indices ← py_iter boundaries;
  coordinates ← mapM (py_getitem vertices) indices;
  Polygon_new coordinates.

(** [get_exterior_ring(vertices, boundaries)].  The recursive call is on
    [boundaries[0]]; the inner [match] names that element as a
    sub-term of [boundaries], which is what makes the recursion
    structural.  Its last branch is never taken: [boundaries[0]] is a
    list only when [boundaries] is a non-empty list
    ([get_exterior_ring_eq] below states the equation without the
    [match]). *)
Fixpoint get_exterior_ring (vertices boundaries : value) {struct boundaries}
  : result Polygon :=
  first ← py_getitem boundaries (VInt 0);
  let is_nested := is_list first in
  if is_nested then
    match boundaries with
    | VList (first :: _) => get_exterior_ring vertices first
    | _ => Raise TypeError
    end
  else exterior_ring_of_leaf vertices boundaries.

(** The list reached from [b] by descending into element 0 for as long as
    that element is a list (the "first-descent leaf list" of the
    specification); [None] when [b] is not a list. *)
Fixpoint first_descent (b : value) : option (list value) :=
  match b with
  | VList l =>
      match l with
      | (VList _ as first) :: _ => first_descent first
      | _ => Some l
      end
  | _ => None
  end.

(** [wrap k b] is [b] inside [k] single-element lists: [[...[b]...]]. *)
Fixpoint wrap (k : nat) (b : value) : value :=
  match k with
  | O => b
  | S k' => VList [wrap k' b]
  end.

(** The vertex-table entry a Python index [i] names in a table [vs]:
    position [i] for [0 <= i], position [length vs + i] for [i < 0]. *)
Definition entry (vs : list value) (i : Z) : option value :=
  if 0 <=? i then vs !! Z.to_nat i
  else if - Z.of_nat (length vs) <=? i then vs !! Z.to_nat (Z.of_nat (length vs) + i)
  else None.

(** The indices that name an entry of a table of [n] entries:
    [-n <= i < n]. *)
Definition in_range (vs : list value) (i : Z) : Prop :=
  - Z.of_nat (length vs) <= i < Z.of_nat (length vs).

(** Modelled from the spec: [cm.set_epsg(code)] of the external loader
    sets the coordinate-system tag; the tag is "corrected/asserted rather
    than [the] vertices being numerically transformed".  The embedding
    keeps the tag beside the document: where the library writes it inside
    the document, and when it refuses to, is not modelled. *)
Definition set_epsg (code : Z) (cm : CityJSON) : CityJSON :=
  {| j := j cm; epsg := Some code |}.

(** ** Loading *)

(** [load_buildings], from the parsed document on:
    [[
        cm = cityjson.load(path)
        cm.set_epsg(TARGET_CRS)
        return cm
    ]] *)
Definition load_buildings (cm : CityJSON) : CityJSON :=
  set_epsg TARGET_CRS cm.

Section Reprojection.
(** The forward transformation of one point from one reference system to
    another is numerical code of an external library: a parameter here. *)
Variable transform : Z -> Z -> Point -> Point.

(** Modelled from the spec: [gdf.to_crs(target)] runs every geometry of
    the frame through the forward transform from the frame's system to
    [target] and tags the result with [target]. *)
Definition to_crs {A} (target : Z) (gdf : GeoDataFrame A Point) : GeoDataFrame A Point :=
  {| rows := map (fun r => (r.1, transform (crs gdf) target r.2)) (rows gdf);
     crs := target |}.

(** [load_uprn], from the parsed table on:
    [[
        geometry = [Point(xy) for xy in zip(df["LONGITUDE"], df["LATITUDE"])]
        gdf = gpd.GeoDataFrame(df, geometry=geometry)
        gdf.crs = 4326
        return gdf.to_crs(TARGET_CRS)
    ]] *)
Definition load_uprn (df : list AddressRow) : GeoDataFrame AddressRow Point :=
  let geometry := map (fun xy => mkPoint xy.1 xy.2)
                      (zip (map LONGITUDE df) (map LATITUDE df)) in
  let gdf := {| rows := zip df geometry; crs := 4326 |} in
  to_crs TARGET_CRS gdf.
End Reprojection.

(** ** Geometry extraction: [extract_geometry] *)

(** [co["geometry"][0]["type"]] *)
Definition geometry_type_of (co : value) : result value :=
  g ← py_getitem co (VStr "geometry");
  g0 ← py_getitem g (VInt 0);
  py_getitem g0 (VStr "type").

(** [co["geometry"][0]["boundaries"]] *)
Definition boundaries_of (co : value) : result value :=
  g ← py_getitem co (VStr "geometry");
  g0 ← py_getitem g (VInt 0);
  py_getitem g0 (VStr "boundaries").

(** The body of the loop of [extract_geometry] for one item
    [(co_id, co)]; it yields the row appended to [data]. *)
Definition extract_row (doc : value) (item : string * value)
  : result (string * Polygon) :=
  let '(co_id, co) := item in
  geometry_type ← geometry_type_of co;
  if negb (py_eq_str geometry_type "MultiSurface") then
    Raise (ValueError "Unexpected surface type: " geometry_type)
  else
    boundaries ← boundaries_of co;
    vertices ← py_getitem doc (VStr "vertices");
    polygon ← get_exterior_ring vertices boundaries;
    mret (co_id, polygon).

(** [extract_geometry(cm)]: the loop runs over the items in order and the
    first exception leaves it. *)
Definition extract_geometry (cm : CityJSON) : result (GeoDataFrame string Polygon) :=
  city_objects ← py_getitem (j cm) (VStr "CityObjects");
  items ← py_items city_objects;
  data ← mapM (extract_row (j cm)) items;
  mret {| rows := data; crs := TARGET_CRS |}.

(** ** The spatial join *)

Section Join.
(** Point-in-polygon containment ([predicate="within"]) is decided by the
    external geometry library: a parameter here. *)
Variable within : Point -> Polygon -> bool.

(** Modelled from the spec: [left.sjoin(right, predicate="within")] is a
    call into an external library.  "For every point, determine the set
    of polygons containing it"; there is one joined row per matching
    (point, polygon) pair, carrying the point's columns and the polygon's
    [id], and the rows follow "the order in which points were originally
    supplied". *)
Definition sjoin (left : GeoDataFrame AddressRow Point)
    (right : GeoDataFrame string Polygon) : list (AddressRow * string) :=
  List.flat_map
    (fun l => map (fun r => (l.1, r.1))
                  (List.filter (fun r => within l.2 r.2) (rows right)))
    (rows left).

(** Modelled from the spec: [.groupby("id")["UPRN"].apply(list)] is a call
    into an external library.  "For every polygon, build the list of point
    identifiers matched to it, preserving the order"; "a polygon matching
    zero points is absent from the Join Result map". *)
Definition groupby_id_UPRN_list (joined_rows : list (AddressRow * string))
  : gmap string (list value) :=
  fold_left
    (fun groups r => <[r.2 := default [] (groups !! r.2) ++ [UPRN r.1]]> groups)
    joined_rows ∅.

(** Line 80 of [main]:
    [[
        joined = uprn.sjoin(gdf, predicate="within").groupby("id")["UPRN"].apply(list)
    ]] *)
Definition spatial_join (uprn : GeoDataFrame AddressRow Point)
    (gdf : GeoDataFrame string Polygon) : gmap string (list value) :=
  groupby_id_UPRN_list (sjoin uprn gdf).
End Join.

(** ** The attribute merge *)

(** Modelled from the spec: [Series.get] is a method of an external
    library.  The join result is a "mapping from building identifier to
    ordered list of address identifiers"; [series.get(key)] is the list
    held for [key] "if present", and [None] for a missing key. *)
Definition Series_get (series : gmap string (list value)) (key : string) : value :=
  match series !! key with
  | Some l => VList l
  | None => VNone
  end.

(** The dictionary [o] after the object it holds under [key] has been
    mutated in place into [v]: parsed JSON shares no objects, so the
    mutation shows at this one place of the document. *)
Definition with_item (o : value) (key : string) (v : value) : value :=
  match o with
  | VDict d => VDict (dict_set key v d)
  | _ => o
  end.

(** The body of the loop at lines 83-84 for one item [(co_id, co)]:
    [[
        co["attributes"]["uprn"] = joined.get(co_id) or []
    ]]
    The right-hand side is evaluated first; it cannot raise. *)
Definition update_city_object (joined : gmap string (list value))
    (item : string * value) : result (string * value) :=
  let '(co_id, co) := item in
  let matched := py_or (Series_get joined co_id) (VList []) in
  attributes ← py_getitem co (VStr "attributes");
  attributes' ← py_setitem attributes "uprn" matched;
  mret (co_id, with_item co "attributes" attributes').

(** The loop at lines 83-84 over [cm.j["CityObjects"].items()]. *)
Definition update_city_objects (joined : gmap string (list value))
    (doc : value) : result value :=
  city_objects ← py_getitem doc (VStr "CityObjects");
  items ← py_items city_objects;
  items' ← mapM (update_city_object joined) items;
  mret (with_item doc "CityObjects" (VDict items')).

(** ** The pipeline: [main] *)

Section Main.
Variable transform : Z -> Z -> Point -> Point.
Variable within : Point -> Polygon -> bool.

(** [main] from line 76 to line 84, on the inputs as the loaders of
    lines 71 and 74 hand them over.  [Ok cm] says that the run reaches
    line 87 with the document [cm] to hand to [cityjson.save]; the
    readers, the writer and what the library calls of lines 71, 74 and 80
    may raise are outside the embedding, so [Ok] is no promise that the
    script returns. *)
Definition main (df : list AddressRow) (parsed : CityJSON) : result CityJSON :=
  let uprn := load_uprn transform df in
  let cm := load_buildings parsed in
  gdf ← extract_geometry cm;
  let joined := spatial_join within uprn gdf in
  doc ← update_city_objects joined (j cm);
  mret {| j := doc; epsg := epsg cm |}.
End Main.

(** What is left of a dictionary when one key is taken out. *)
Definition dict_without (k : string) (d : list (string * value))
  : list (string * value) :=
  List.filter (fun kv => negb (String.eqb kv.1 k)) d.

(** The identifiers a list of joined rows holds for the polygon [id], in
    the order of the rows. *)
Definition matched_of (id : string) (joined_rows : list (AddressRow * string))
  : list value :=
  map (fun r => UPRN r.1) (List.filter (fun r => String.eqb r.2 id) joined_rows).

(** The identifiers of the points of a frame that lie within [poly], in
    the order in which the points were supplied. *)
Definition points_within (within : Point -> Polygon -> bool)
    (uprn : GeoDataFrame AddressRow Point) (poly : Polygon) : list value :=
  map (fun r => UPRN r.1) (List.filter (fun r => within r.2 poly) (rows uprn)).

(** A building record carries an attribute bag: [co["attributes"]] is a
    dictionary. *)
Definition has_bag (item : string * value) : Prop :=
  exists attributes, py_getitem item.2 (VStr "attributes") = Ok (VDict attributes).

(** [item'] is the city object [item] with nothing changed but the entry
    ["uprn"] of its attribute bag: the same identifier, the same keys in
    the same order, every entry other than ["attributes"] as it was (the
    geometry among them), and every attribute other than ["uprn"] as it
    was. *)
Definition differs_in_uprn_only (item item' : string * value) : Prop :=
  item'.1 = item.1
  /\ exists record record' attributes attributes',
       item.2 = VDict record /\ item'.2 = VDict record'
       /\ record'.*1 = record.*1
       /\ dict_without "attributes" record' = dict_without "attributes" record
       /\ dict_get "geometry" record' = dict_get "geometry" record
       /\ dict_get "attributes" record = Some (VDict attributes)
       /\ dict_get "attributes" record' = Some (VDict attributes')
       /\ dict_without "uprn" attributes' = dict_without "uprn" attributes.

(** ** Fixtures for the examples *)

(** The examples need a concrete containment test and concrete inputs.
    For integer coordinates, [in_bounding_box] answers whether a point
    lies strictly inside the bounding box of a polygon's vertices, which
    is containment itself for an axis-parallel rectangle. *)
Definition xy (v : value) : option (Z * Z) :=
  match v with
  | VList [VInt x; VInt y] => Some (x, y)
  | _ => None
  end.

Definition in_bounding_box (p : Point) (poly : Polygon) : bool :=
  match point_x p, point_y p, mapM xy (shell poly) with
  | VInt x, VInt y, Some (c :: cs) =>
      (foldr Z.min c.1 cs.*1 <? x) && (x <? foldr Z.max c.1 cs.*1)
      && (foldr Z.min c.2 cs.*2 <? y) && (y <? foldr Z.max c.2 cs.*2)
  | _, _, _ => false
  end.

(** A constructor check for the examples: it refuses, with [ValueError],
    fewer than three coordinates and entries that are not pairs or
    triples of numbers. *)
Definition is_number (v : value) : bool :=
  match v with
  | VInt _ | VFloat _ => true
  | _ => false
  end.

Definition is_coordinate (v : value) : bool :=
  match v with
  | VList [x; y] => is_number x && is_number y
  | VList [x; y; z] => is_number x && is_number y && is_number z
  | _ => false
  end.

Definition ring_check (coordinates : list value) : option exn :=
  if (length coordinates <? 3)%nat then
    Some (ValueError "A ring needs at least 3 coordinates: " (VList coordinates))
  else if forallb is_coordinate coordinates then None
  else Some (ValueError "Not a sequence of coordinates: " (VList coordinates)).

(** The square [(0,0), (0,2), (2,2), (2,0)] as a vertex table. *)
Definition square : list value :=
  [VList [VInt 0; VInt 0]; VList [VInt 0; VInt 2];
   VList [VInt 2; VInt 2]; VList [VInt 2; VInt 0]].

(** A city object with one geometry entry and the given attribute bag. *)
Definition city_object (tag : string) (boundaries : value)
    (attributes : list (string * value)) : value :=
  VDict [("type", VStr "Building");
         ("geometry", VList [VDict [("type", VStr tag); ("boundaries", boundaries)]]);
         ("attributes", VDict attributes)].

(** A document with one building over [square]. *)
Definition one_building (attributes : list (string * value)) : CityJSON :=
  {| j := VDict [("CityObjects",
                  VDict [("b1", city_object "MultiSurface"
                                  (VList [VList [VList [VInt 0; VInt 1; VInt 2; VInt 3]]])
                                  attributes)]);
                 ("vertices", VList square)];
     epsg := None |}.

(** What Python accepts as a list index among parsed JSON values: an
    [int], or a [bool] (a subclass of [int]: [False] is 0, [True] is 1). *)
Definition as_index (x : value) : option Z :=
  match x with
  | VInt i => Some i
  | VBool b => Some (Z.b2z b)
  | _ => None
  end.

(** * Properties *)

(** ** The result monad *)

Lemma bind_Ok {A B} (f : A -> result B) (a : A) : (Ok a ≫= f) = f a.
Proof. reflexivity. Qed.

Lemma bind_Ok_inv {A B} (f : A -> result B) (m : result A) (b : B) :
  (m ≫= f) = Ok b -> exists a, m = Ok a /\ f a = Ok b.
Proof. destruct m as [a|e]; [eauto | discriminate]. Qed.

Lemma mapM_cons {A B} (f : A -> result B) (x : A) (l : list A) :
  mapM f (x :: l) = (y ← f x; k ← mapM f l; mret (y :: k)).
Proof. reflexivity. Qed.

Lemma mapM_Ok_Forall2 {A B} (f : A -> result B) (l : list A) (k : list B) :
  mapM f l = Ok k <-> Forall2 (fun x y => f x = Ok y) l k.
Proof.
  revert k. induction l as [|x l IH]; intros k.
  - split.
    + intros [= <-]. constructor.
    + intros H. inversion H. reflexivity.
  - rewrite mapM_cons. split.
    + intros H. apply bind_Ok_inv in H as (y & Hy & H).
      apply bind_Ok_inv in H as (k' & Hk' & [= <-]).
      constructor; [exact Hy | by apply IH].
    + intros H. inversion H as [|? y ? k' Hy Hk']; subst.
      rewrite Hy, bind_Ok. apply IH in Hk'. rewrite Hk'. reflexivity.
Qed.

Lemma mapM_Raise {A B} (f : A -> result B) (l : list A) (x : A) :
  x ∈ l -> is_Raise (f x) -> is_Raise (mapM f l).
Proof.
  intros Hin [e He]. induction Hin as [x l|x y l Hin IH].
  - rewrite mapM_cons, He. eexists; reflexivity.
  - rewrite mapM_cons. destruct (f y) as [b|e'].
    + rewrite bind_Ok. destruct (IH He) as [e'' ->]. eexists; reflexivity.
    + eexists; reflexivity.
Qed.

Lemma mapM_Raise_inv {A B} (f : A -> result B) (l : list A) (e : exn) :
  mapM f l = Raise e -> exists x, x ∈ l /\ f x = Raise e.
Proof.
  induction l as [|x l IH]; [discriminate|].
  rewrite mapM_cons. destruct (f x) as [b|e'] eqn:Hx.
  - rewrite bind_Ok. destruct (mapM f l) as [k|e'] eqn:Hl; [discriminate|].
    intros [= ->]. destruct IH as (y & Hy & Hfy); [reflexivity|].
    exists y. split; [by right | exact Hfy].
  - intros [= ->]. exists x. split; [by left | exact Hx].
Qed.

(** ** Indexing *)

Lemma seq_index_entry (vs : list value) (i : Z) :
  seq_index vs i = match entry vs i with
                   | Some x => Ok x
                   | None => Raise IndexError
                   end.
Proof.
  unfold seq_index, entry.
  destruct (Z.ltb_spec i 0) as [Hneg|Hpos].
  - destruct (Z.leb_spec 0 i) as [|_]; [lia|].
    destruct (Z.ltb_spec (i + Z.of_nat (length vs)) 0) as [Hlow|Hlow]; cbn [orb].
    + destruct (Z.leb_spec (- Z.of_nat (length vs)) i); [lia | reflexivity].
    + destruct (Z.leb_spec (- Z.of_nat (length vs)) i); [|lia].
      destruct (Z.leb_spec (Z.of_nat (length vs)) (i + Z.of_nat (length vs))); [lia|].
      by rewrite (Z.add_comm i).
  - destruct (Z.leb_spec 0 i) as [_|]; [|lia].
    destruct (Z.ltb_spec i 0); [lia|]. cbn [orb].
    destruct (Z.leb_spec (Z.of_nat (length vs)) i) as [Hge|Hlt]; [|reflexivity].
    rewrite lookup_ge_None_2; [reflexivity | lia].
Qed.

Lemma entry_is_Some (vs : list value) (i : Z) :
  is_Some (entry vs i) <-> in_range vs i.
Proof.
  unfold entry, in_range.
  destruct (Z.leb_spec 0 i).
  - rewrite lookup_lt_is_Some. lia.
  - destruct (Z.leb_spec (- Z.of_nat (length vs)) i).
    + rewrite lookup_lt_is_Some. lia.
    + split; [intros [? [=]] | lia].
Qed.

Lemma seq_index_head {A} (x : A) (l : list A) : seq_index (x :: l) 0 = Ok x.
Proof.
  unfold seq_index. cbn [length]. rewrite Nat2Z.inj_succ.
  destruct (Z.ltb_spec 0 0); [lia|].
  destruct (Z.leb_spec (Z.succ (Z.of_nat (length l))) 0); [lia|].
  reflexivity.
Qed.

Lemma seq_index_nil {A} (i : Z) : seq_index (@nil A) i = Raise IndexError.
Proof.
  unfold seq_index. cbn [length].
  destruct (i <? 0) eqn:Hi;
    [destruct (Z.ltb_spec (i + Z.of_nat 0) 0) | destruct (Z.ltb_spec i 0)];
    cbn [orb]; try reflexivity.
  - apply Z.ltb_lt in Hi. lia.
  - destruct (Z.leb_spec (Z.of_nat 0) i); [reflexivity | lia].
Qed.

Lemma seq_index_elem {A} (l : list A) (i : Z) (x : A) :
  seq_index l i = Ok x -> x ∈ l.
Proof.
  unfold seq_index. destruct (_ || _); [discriminate|].
  destruct (l !! _) eqn:H; [|discriminate].
  intros [= <-]. by eapply list_elem_of_lookup_2.
Qed.

(** ** The boundary resolver *)

Lemma chars_not_list (s : string) (x : value) : x ∈ chars s -> is_list x = false.
Proof.
  unfold chars. intros H. apply list_elem_of_fmap in H as (c & -> & _). reflexivity.
Qed.

(** The recursion equation of [get_exterior_ring], as the source has it:
    test [boundaries[0]], recurse on it when it is a list, resolve the
    current list otherwise. *)
Lemma get_exterior_ring_eq (vertices boundaries : value) :
  get_exterior_ring vertices boundaries =
    (first ← py_getitem boundaries (VInt 0);
     if is_list first then get_exterior_ring vertices first
     else exterior_ring_of_leaf vertices boundaries).
Proof.
  destruct boundaries as [| | | |s|l|d]; try reflexivity.
  - cbn [get_exterior_ring py_getitem].
    destruct (seq_index (chars s) 0) as [x|e] eqn:Hx; [|reflexivity].
    rewrite !bind_Ok. apply seq_index_elem, chars_not_list in Hx. by rewrite Hx.
  - destruct l as [|x l]; [reflexivity|].
    cbn [get_exterior_ring py_getitem]. by rewrite seq_index_head.
Qed.

Lemma get_exterior_ring_nested (vertices : value) (l rest : list value) :
  get_exterior_ring vertices (VList (VList l :: rest))
  = get_exterior_ring vertices (VList l).
Proof.
  rewrite get_exterior_ring_eq. cbn [py_getitem]. by rewrite seq_index_head.
Qed.

(** Resolving goes through the first-descent leaf list. *)
Lemma get_exterior_ring_descent (vertices b : value) (leaf : list value) :
  first_descent b = Some leaf ->
  get_exterior_ring vertices b =
    match leaf with
    | [] => Raise IndexError
    | _ :: _ => exterior_ring_of_leaf vertices (VList leaf)
    end.
Proof.
  revert leaf. induction b as [| | | | |l IH|d _] using value_nested_ind;
    intros leaf; try discriminate.
  destruct l as [|x l]; [by intros [= <-]|].
  apply Forall_cons_1 in IH as [IHx _].
  destruct x as [| | | | |l0|]; try (intros [= <-]; rewrite get_exterior_ring_eq;
    cbn [py_getitem]; rewrite seq_index_head; reflexivity).
  cbn [first_descent]. intros Hd. rewrite get_exterior_ring_nested. by apply IHx.
Qed.

Lemma wrap_is_list (k : nat) (b : value) :
  is_list b = true -> is_list (wrap k b) = true.
Proof. destruct k; [done | reflexivity]. Qed.

Lemma get_exterior_ring_wrap (vertices b : value) (k : nat) :
  is_list b = true ->
  get_exterior_ring vertices (wrap k b) = get_exterior_ring vertices b.
Proof.
  intros Hb. induction k as [|k IH]; [reflexivity|].
  cbn [wrap]. pose proof (wrap_is_list k b Hb) as Hw.
  destruct (wrap k b) as [| | | | |l|]; try discriminate.
  by rewrite get_exterior_ring_nested.
Qed.

(** With a list as vertex table, only a list can be resolved. *)
Lemma get_exterior_ring_Ok_list (vs : list value) (b : value) (p : Polygon) :
  get_exterior_ring (VList vs) b = Ok p -> is_list b = true.
Proof.
  destruct b as [| | | |s| |]; try discriminate; try reflexivity.
  rewrite get_exterior_ring_eq. cbn [py_getitem].
  destruct (seq_index (chars s) 0) as [x|e] eqn:Hx; [|discriminate].
  rewrite bind_Ok. rewrite (chars_not_list s x) by (by eapply seq_index_elem).
  unfold exterior_ring_of_leaf. cbn [py_iter]. rewrite bind_Ok.
  unfold chars in *. destruct (String.list_ascii_of_string s) as [|c cs].
  - cbn [map] in Hx. by rewrite seq_index_nil in Hx.
  - discriminate.
Qed.





(** C2.  Nesting invariance: a boundary reference that resolves against a
    vertex table resolves to the same polygon when it is wrapped in a
    single-element list, and so at every depth of wrapping. *)
Theorem get_exterior_ring_nesting_invariant
    (vs : list value) (B : value) (p : Polygon) (k : nat) :
  get_exterior_ring (VList vs) B = Ok p ->
  get_exterior_ring (VList vs) (VList [B]) = Ok p
  /\ get_exterior_ring (VList vs) (wrap k B) = Ok p.
Proof.
  intros Hp. pose proof (get_exterior_ring_Ok_list _ _ _ Hp) as HB.
  split.
  - change (VList [B]) with (wrap 1 B). by rewrite get_exterior_ring_wrap.
  - by rewrite get_exterior_ring_wrap.
Qed.

Lemma index_raises_IndexError (vs : list value) (i : Z) (e : exn) :
  py_getitem (VList vs) (VInt i) = Raise e -> e = IndexError /\ ~ in_range vs i.
Proof.
  cbn [py_getitem]. rewrite seq_index_entry.
  destruct (entry vs i) as [x|] eqn:Hx; [discriminate|].
  intros [= <-]. split; [reflexivity|].
  rewrite <- entry_is_Some, Hx. by intros [? [=]].
Qed.

Lemma index_out_of_range (vs : list value) (i : Z) :
  ~ in_range vs i -> py_getitem (VList vs) (VInt i) = Raise IndexError.
Proof.
  intros Hi. cbn [py_getitem]. rewrite seq_index_entry.
  destruct (entry vs i) as [x|] eqn:Hx; [|reflexivity].
  destruct Hi. apply entry_is_Some. by rewrite Hx.
Qed.

Lemma indices_raise (vs : list value) (idx : list Z) :
  Exists (fun i => ~ in_range vs i) idx <->
  mapM (py_getitem (VList vs)) (VInt <$> idx) = Raise IndexError.
Proof.
  split.
  - intros Hex. apply Exists_exists in Hex as (i & Hi & Hout).
    destruct (mapM_Raise (py_getitem (VList vs)) (VInt <$> idx) (VInt i)) as [e He].
    + by apply list_elem_of_fmap_2.
    + exists IndexError. by apply index_out_of_range.
    + rewrite He. f_equal.
      apply mapM_Raise_inv in He as (x & Hx & Hfx).
      apply list_elem_of_fmap in Hx as (k & -> & _).
      by apply index_raises_IndexError in Hfx as [-> _].
  - intros Hm. apply mapM_Raise_inv in Hm as (x & Hx & Hfx).
    apply list_elem_of_fmap in Hx as (k & -> & Hk).
    apply index_raises_IndexError in Hfx as [_ Hout].
    apply Exists_exists. eauto.
Qed.

(** C6.  Resolver error conditions.  Whatever the vertex table, an empty
    boundary reference (also one reached by descending into element 0)
    raises [IndexError]; and when the first-descent leaf list names an
    index [i] that is out of range against a vertex table of [n] entries
    ([n <= i], or [i < -n]), [get_exterior_ring] raises: [IndexError] when
    the leaf list holds indices only.  There is no partial result: the
    outcome is the exception. *)
Theorem get_exterior_ring_fatal (vertices : value) (vs : list value) (b : value) :
  get_exterior_ring vertices (VList []) = Raise IndexError
  /\ (first_descent b = Some [] -> get_exterior_ring vertices b = Raise IndexError)
  /\ (forall leaf i,
        first_descent b = Some leaf -> VInt i ∈ leaf ->
        Z.of_nat (length vs) <= i \/ i < - Z.of_nat (length vs) ->
        is_Raise (get_exterior_ring (VList vs) b))
  /\ (forall idx i,
        first_descent b = Some (VInt <$> idx) -> i ∈ idx ->
        Z.of_nat (length vs) <= i \/ i < - Z.of_nat (length vs) ->
        get_exterior_ring (VList vs) b = Raise IndexError).
Proof.
  assert (Hleaf : forall leaf i,
    first_descent b = Some leaf -> VInt i ∈ leaf ->
    Z.of_nat (length vs) <= i \/ i < - Z.of_nat (length vs) ->
    is_Raise (get_exterior_ring (VList vs) b)).
  { intros leaf i Hd Hi Hout. rewrite (get_exterior_ring_descent _ _ _ Hd).
    destruct leaf as [|x leaf]; [by eexists|].
    unfold exterior_ring_of_leaf. cbn [py_iter]. rewrite bind_Ok.
    destruct (mapM_Raise (py_getitem (VList vs)) (x :: leaf) (VInt i) Hi) as [e He].
    - exists IndexError. apply index_out_of_range. unfold in_range. lia.
    - rewrite He. by eexists. }
  split; [reflexivity|]. split; [|split].
  - intros Hd. by rewrite (get_exterior_ring_descent _ _ _ Hd).
  - exact Hleaf.
  - intros idx i Hd Hi Hout.
    destruct (Hleaf (VInt <$> idx) i Hd) as [e He]; [by apply list_elem_of_fmap_2 | done |].
    clear e He. rewrite (get_exterior_ring_descent _ _ _ Hd).
    assert (Hm : mapM (py_getitem (VList vs)) (VInt <$> idx) = Raise IndexError).
    { apply indices_raise. apply Exists_exists. exists i. split; [exact Hi|].
      unfold in_range. lia. }
    destruct idx as [|i0 idx]; [by inversion Hi|].
    rewrite fmap_cons in *. unfold exterior_ring_of_leaf. cbn [py_iter].
    by rewrite bind_Ok, Hm.
Qed.


(** ** Geometry extraction *)

Lemma py_eq_str_true (v : value) (s : string) :
  py_eq_str v s = true <-> v = VStr s.
Proof.
  destruct v as [| | | |s'| |]; cbn; try (split; [discriminate | intros [=]]).
  rewrite String.eqb_eq. split; [by intros -> | by intros [= ->]].
Qed.

Lemma extract_row_mismatch (doc : value) (co_id : string) (co t : value) :
  geometry_type_of co = Ok t ->
  t <> VStr "MultiSurface" ->
  extract_row doc (co_id, co) = Raise (ValueError "Unexpected surface type: " t).
Proof.
  intros Ht Hne. unfold extract_row. rewrite Ht, bind_Ok.
  destruct (py_eq_str t "MultiSurface") eqn:Heq; [|reflexivity].
  by apply py_eq_str_true in Heq.
Qed.

Lemma extract_row_Ok (doc : value) (item : string * value) (row : string * Polygon) :
  extract_row doc item = Ok row ->
  row.1 = item.1
  /\ geometry_type_of item.2 = Ok (VStr "MultiSurface")
  /\ exists boundaries vertices,
       boundaries_of item.2 = Ok boundaries
       /\ py_getitem doc (VStr "vertices") = Ok vertices
       /\ get_exterior_ring vertices boundaries = Ok row.2.
Proof.
  destruct item as [co_id co]. unfold extract_row.
  intros H. apply bind_Ok_inv in H as (t & Ht & H).
  destruct (py_eq_str t "MultiSurface") eqn:Heq; [|discriminate].
  apply py_eq_str_true in Heq as ->. cbn [negb] in H.
  apply bind_Ok_inv in H as (b & Hb & H).
  apply bind_Ok_inv in H as (vertices & Hv & H).
  apply bind_Ok_inv in H as (polygon & Hp & [= <-]).
  cbn. eauto 10.
Qed.

Lemma mapM_app_Raise {A B} (f : A -> result B) (pre post : list A) (x : A) (e : exn) :
  Forall (fun y => is_Ok (f y)) pre ->
  f x = Raise e ->
  mapM f (pre ++ x :: post) = Raise e.
Proof.
  intros Hpre Hx. induction Hpre as [|y pre [b Hy] _ IH].
  - cbn [app]. by rewrite mapM_cons, Hx.
  - rewrite <- app_comm_cons, mapM_cons, Hy, bind_Ok, IH. reflexivity.
Qed.

Lemma extract_geometry_items (cm : CityJSON) (cos : list (string * value)) :
  py_getitem (j cm) (VStr "CityObjects") = Ok (VDict cos) ->
  extract_geometry cm =
    (data ← mapM (extract_row (j cm)) cos; mret {| rows := data; crs := TARGET_CRS |}).
Proof. intros H. unfold extract_geometry. by rewrite H. Qed.

Lemma main_extract_Raise (transform : Z -> Z -> Point -> Point)
    (within : Point -> Polygon -> bool) (df : list AddressRow) (cm : CityJSON) (e : exn) :
  extract_geometry cm = Raise e -> main transform within df cm = Raise e.
Proof.
  intros H. unfold main.
  change (extract_geometry (load_buildings cm)) with (extract_geometry cm).
  by rewrite H.
Qed.

(** C5.  Fail-fast on the geometry type.  If the geometry entry of any
    city object carries a type tag other than ["MultiSurface"],
    [extract_geometry] raises, and so does [main], whatever the join
    would compute; where that city object is the first on which the loop
    fails, the exception is the [ValueError] that names the tag.  When
    [extract_geometry] returns, there is exactly one row per city object,
    in order, each with the object's identifier and the polygon resolved
    from its boundaries, and every tag is ["MultiSurface"]. *)
Theorem extract_geometry_fail_fast (cm : CityJSON) (cos : list (string * value)) :
  py_getitem (j cm) (VStr "CityObjects") = Ok (VDict cos) ->
  (forall co_id co t,
      (co_id, co) ∈ cos -> geometry_type_of co = Ok t -> t <> VStr "MultiSurface" ->
      is_Raise (extract_geometry cm)
      /\ forall transform within df, is_Raise (main transform within df cm))
  /\ (forall pre co_id co post t,
        cos = pre ++ (co_id, co) :: post ->
        Forall (fun item => is_Ok (extract_row (j cm) item)) pre ->
        geometry_type_of co = Ok t -> t <> VStr "MultiSurface" ->
        extract_geometry cm = Raise (ValueError "Unexpected surface type: " t)
        /\ forall transform within df,
             main transform within df cm
             = Raise (ValueError "Unexpected surface type: " t))
  /\ (forall gdf,
        extract_geometry cm = Ok gdf ->
        crs gdf = TARGET_CRS
        /\ Forall2 (fun item row =>
                      row.1 = item.1
                      /\ geometry_type_of item.2 = Ok (VStr "MultiSurface")
                      /\ exists boundaries vertices,
                           boundaries_of item.2 = Ok boundaries
                           /\ py_getitem (j cm) (VStr "vertices") = Ok vertices
                           /\ get_exterior_ring vertices boundaries = Ok row.2)
                   cos (rows gdf)).
Proof.
  intros Hcos. split; [|split].
  - intros co_id co t Hin Ht Hne.
    assert (Hr : is_Raise (extract_geometry cm)).
    { rewrite (extract_geometry_items _ _ Hcos).
      destruct (mapM_Raise (extract_row (j cm)) cos (co_id, co) Hin) as [e He].
      - eexists. by apply extract_row_mismatch.
      - rewrite He. by eexists. }
    split; [exact Hr|].
    intros transform within df. destruct Hr as [e He]. exists e.
    by apply main_extract_Raise.
  - intros pre co_id co post t -> Hpre Ht Hne.
    assert (He : extract_geometry cm = Raise (ValueError "Unexpected surface type: " t)).
    { rewrite (extract_geometry_items _ _ Hcos).
      rewrite (mapM_app_Raise _ pre post (co_id, co)
                 (ValueError "Unexpected surface type: " t) Hpre); [reflexivity|].
      by apply extract_row_mismatch. }
    split; [exact He|].
    intros transform within df. by apply main_extract_Raise.
  - intros gdf. rewrite (extract_geometry_items _ _ Hcos). intros H.
    apply bind_Ok_inv in H as (data & Hdata & [= <-]).
    split; [reflexivity|]. cbn [rows].
    apply mapM_Ok_Forall2 in Hdata.
    eapply Forall2_impl; [exact Hdata|].
    intros item row Hrow. by apply extract_row_Ok.
Qed.

(** ** The spatial join *)

Section JoinFacts.
Variable within : Point -> Polygon -> bool.

Lemma groupby_fold (joined_rows : list (AddressRow * string))
    (groups : gmap string (list value)) (id : string) :
  fold_left
    (fun groups r => <[r.2 := default [] (groups !! r.2) ++ [UPRN r.1]]> groups)
    joined_rows groups !! id
  = match matched_of id joined_rows with
    | [] => groups !! id
    | _ :: _ => Some (default [] (groups !! id) ++ matched_of id joined_rows)
    end.
Proof.
  revert groups. induction joined_rows as [|[a k] rs IH]; intros groups; [reflexivity|].
  cbn [fold_left]. rewrite IH. unfold matched_of. cbn [List.filter fst snd].
  destruct (String.eqb_spec k id) as [->|Hne].
  - rewrite lookup_insert_eq. cbn [map default fst].
    destruct (map _ (List.filter _ rs)) as [|u us]; [reflexivity|].
    unfold Datatypes.id. by rewrite <- app_assoc.
  - by rewrite lookup_insert_ne.
Qed.

Lemma groupby_lookup (joined_rows : list (AddressRow * string)) (id : string) :
  groupby_id_UPRN_list joined_rows !! id
  = match matched_of id joined_rows with
    | [] => None
    | _ :: _ => Some (matched_of id joined_rows)
    end.
Proof.
  unfold groupby_id_UPRN_list. rewrite groupby_fold, lookup_empty.
  by destruct (matched_of id joined_rows).
Qed.

Lemma matched_of_app (id : string) (r1 r2 : list (AddressRow * string)) :
  matched_of id (r1 ++ r2) = matched_of id r1 ++ matched_of id r2.
Proof. unfold matched_of. by rewrite List.filter_app, map_app. Qed.

Lemma matched_of_fresh (id : string) (a : AddressRow) (right : list (string * Polygon)) :
  id ∉ right.*1 -> matched_of id (map (fun r => (a, r.1)) right) = [].
Proof.
  induction right as [|[k q] right IH]; [reflexivity|].
  cbn [fmap list_fmap fst]. intros Hnot. apply not_elem_of_cons in Hnot as [Hne Hnot].
  unfold matched_of in *. cbn [map List.filter fst snd].
  destruct (String.eqb_spec k id) as [->|_]; [done | by apply IH].
Qed.

Lemma matched_of_row (id : string) (poly : Polygon) (a : AddressRow) (p : Point)
    (right : list (string * Polygon)) :
  NoDup right.*1 -> (id, poly) ∈ right ->
  matched_of id (map (fun r => (a, r.1)) (List.filter (fun r => within p r.2) right))
  = if within p poly then [UPRN a] else [].
Proof.
  induction right as [|[k q] right IH]; [by intros _ ?%elem_of_nil|].
  cbn [fmap list_fmap fst]. intros [Hk Hnd]%NoDup_cons Hin.
  assert (Hsub : forall i, i ∉ right.*1 -> i ∉ (List.filter (fun r => within p r.2) right).*1).
  { intros i Hi Hin'. apply Hi. apply list_elem_of_fmap in Hin' as (r & -> & Hr).
    apply list_elem_of_fmap. exists r. split; [reflexivity|].
    apply list_elem_of_In, List.filter_In in Hr as [Hr _]. by apply list_elem_of_In. }
  apply elem_of_cons in Hin as [[= <- <-]|Hin].
  - cbn [List.filter snd]. destruct (within p poly).
    + cbn [map]. change ((a, (id, poly).1) :: ?l) with ([(a, id)] ++ l).
      rewrite matched_of_app, matched_of_fresh by by apply Hsub.
      unfold matched_of. cbn. by rewrite String.eqb_refl.
    + apply matched_of_fresh. by apply Hsub.
  - assert (Hne : k <> id).
    { intros ->. apply Hk. apply list_elem_of_fmap. by exists (id, poly). }
    cbn [List.filter snd]. destruct (within p q); [|by apply IH].
    cbn [map fst]. unfold matched_of at 1. cbn [List.filter snd].
    destruct (String.eqb_spec k id) as [|_]; [done|]. by apply IH.
Qed.

Lemma matched_of_sjoin (uprn : GeoDataFrame AddressRow Point)
    (gdf : GeoDataFrame string Polygon) (id : string) (poly : Polygon) :
  NoDup (rows gdf).*1 -> (id, poly) ∈ rows gdf ->
  matched_of id (sjoin within uprn gdf) = points_within within uprn poly.
Proof.
  intros Hnd Hin. unfold sjoin, points_within.
  induction (rows uprn) as [|[a p] ls IH]; [reflexivity|].
  cbn [List.flat_map List.filter fst snd].
  rewrite matched_of_app, IH, (matched_of_row id poly) by done.
  by destruct (within p poly).
Qed.

(** C3.  Order preservation in the spatial join.  For a polygon of the
    building frame (whose identifiers are distinct), the list the join
    holds for it is exactly the list of the identifiers of the points
    lying within the polygon, in the order in which the points were
    supplied; the polygon is absent from the join result when no point
    lies within it, and the value merged for it is that list in both
    cases. *)
Theorem spatial_join_order (uprn : GeoDataFrame AddressRow Point)
    (gdf : GeoDataFrame string Polygon) (id : string) (poly : Polygon) :
  NoDup (rows gdf).*1 ->
  (id, poly) ∈ rows gdf ->
  spatial_join within uprn gdf !! id
  = match points_within within uprn poly with
    | [] => None
    | _ :: _ => Some (points_within within uprn poly)
    end
  /\ py_or (Series_get (spatial_join within uprn gdf) id) (VList [])
     = VList (points_within within uprn poly).
Proof.
  intros Hnd Hin.
  assert (Hj : spatial_join within uprn gdf !! id
               = match points_within within uprn poly with
                 | [] => None
                 | _ :: _ => Some (points_within within uprn poly)
                 end).
  { unfold spatial_join. by rewrite groupby_lookup, (matched_of_sjoin _ _ _ poly). }
  split; [exact Hj|].
  unfold Series_get. rewrite Hj. by destruct (points_within within uprn poly).
Qed.
End JoinFacts.

Lemma spatial_join_order_witness :
  let address u x := (mkAddressRow (VInt u) (VInt x) (VInt x), mkPoint (VInt x) (VInt x)) in
  let uprn := {| rows := [address 101 1; address 102 5; address 103 1; address 104 1];
                 crs := TARGET_CRS |} in
  let gdf := {| rows := [("b1", mkPolygon square)]; crs := TARGET_CRS |} in
  spatial_join in_bounding_box uprn gdf !! "b1" = Some [VInt 101; VInt 103; VInt 104]
  /\ py_or (Series_get (spatial_join in_bounding_box uprn gdf) "b1") (VList [])
     = VList [VInt 101; VInt 103; VInt 104].
Proof.
  intros address uprn gdf.
  apply (spatial_join_order in_bounding_box uprn gdf "b1" (mkPolygon square)).
  - cbn. apply NoDup_singleton.
  - apply list_elem_of_singleton. reflexivity.
Defined.

(** ** The attribute merge *)

Lemma dict_get_set_eq (k : string) (v : value) (d : list (string * value)) :
  dict_get k (dict_set k v d) = Some v.
Proof.
  induction d as [|[k' v'] d IH]; cbn [dict_set dict_get].
  - by rewrite String.eqb_refl.
  - destruct (String.eqb k' k) eqn:Hk; cbn [dict_get]; rewrite Hk; [reflexivity | exact IH].
Qed.

Lemma dict_get_set_ne (k k' : string) (v : value) (d : list (string * value)) :
  k' <> k -> dict_get k' (dict_set k v d) = dict_get k' d.
Proof.
  intros Hne. induction d as [|[k0 v0] d IH]; cbn [dict_set dict_get].
  - destruct (String.eqb_spec k k'); [congruence | reflexivity].
  - destruct (String.eqb_spec k0 k) as [->|]; cbn [dict_get].
    + destruct (String.eqb_spec k k'); [congruence | reflexivity].
    + by rewrite IH.
Qed.

Lemma dict_without_set (k : string) (v : value) (d : list (string * value)) :
  dict_without k (dict_set k v d) = dict_without k d.
Proof.
  unfold dict_without. induction d as [|[k' v'] d IH]; cbn [dict_set List.filter fst].
  - by rewrite String.eqb_refl.
  - destruct (String.eqb k' k) eqn:Hk; cbn [List.filter fst]; rewrite Hk; cbn [negb].
    + reflexivity.
    + by rewrite IH.
Qed.

Lemma dict_set_keys (k : string) (v v0 : value) (d : list (string * value)) :
  dict_get k d = Some v0 -> (dict_set k v d).*1 = d.*1.
Proof.
  induction d as [|[k' v'] d IH]; [discriminate|].
  cbn [dict_get dict_set]. destruct (String.eqb k' k); [reflexivity|].
  intros H. cbn [fmap list_fmap fst]. f_equal. by apply IH.
Qed.

(** The value [joined.get(co_id) or []] is always a list. *)
Lemma matched_value (joined : gmap string (list value)) (co_id : string) :
  py_or (Series_get joined co_id) (VList [])
  = VList (default [] (joined !! co_id)).
Proof.
  unfold Series_get. destruct (joined !! co_id) as [[|u l]|]; reflexivity.
Qed.

Lemma getitem_dict_inv (o : value) (key : string) (v : value) :
  py_getitem o (VStr key) = Ok v ->
  exists d, o = VDict d /\ dict_get key d = Some v.
Proof.
  destruct o as [| | | |s|l|d]; try discriminate.
  cbn [py_getitem]. destruct (dict_get key d) as [v'|] eqn:Hd; [|discriminate].
  intros [= <-]. eauto.
Qed.

Lemma getitem_dict (d : list (string * value)) (key : string) :
  py_getitem (VDict d) (VStr key)
  = match dict_get key d with
    | Some v => Ok v
    | None => Raise (KeyError (VStr key))
    end.
Proof. reflexivity. Qed.

(** What one turn of the merge loop returns, when it returns. *)
Lemma update_city_object_Ok (joined : gmap string (list value))
    (item item' : string * value) :
  update_city_object joined item = Ok item' ->
  exists record attributes,
    item.2 = VDict record
    /\ dict_get "attributes" record = Some (VDict attributes)
    /\ item' = (item.1,
                VDict (dict_set "attributes"
                         (VDict (dict_set "uprn"
                                   (VList (default [] (joined !! item.1))) attributes))
                         record)).
Proof.
  destruct item as [co_id co]. unfold update_city_object. rewrite matched_value.
  intros H. apply bind_Ok_inv in H as (attrs & Ha & H).
  apply getitem_dict_inv in Ha as (record & -> & Hrec).
  destruct attrs as [| | | | | |attributes]; try discriminate.
  cbn in H. injection H as <-. eauto.
Qed.

Lemma update_city_object_bag (joined : gmap string (list value))
    (co_id : string) (co : value) (attributes : list (string * value)) :
  py_getitem co (VStr "attributes") = Ok (VDict attributes) ->
  is_Ok (update_city_object joined (co_id, co)).
Proof. intros H. unfold update_city_object. rewrite H. by eexists. Qed.

Lemma update_city_objects_items (joined : gmap string (list value))
    (doc : value) (cos : list (string * value)) :
  py_getitem doc (VStr "CityObjects") = Ok (VDict cos) ->
  update_city_objects joined doc =
    (items' ← mapM (update_city_object joined) cos;
     mret (with_item doc "CityObjects" (VDict items'))).
Proof. intros H. unfold update_city_objects. by rewrite H. Qed.

Lemma mapM_is_Ok {A B} (f : A -> result B) (l : list A) :
  Forall (fun x => is_Ok (f x)) l -> is_Ok (mapM f l).
Proof.
  induction 1 as [|x l [y Hy] _ [k Hk]]; [by eexists|].
  exists (y :: k). by rewrite mapM_cons, Hy, bind_Ok, Hk.
Qed.

Lemma update_city_object_no_bag (joined : gmap string (list value))
    (co_id : string) (record : list (string * value)) :
  dict_get "attributes" record = None ->
  update_city_object joined (co_id, VDict record) = Raise (KeyError (VStr "attributes")).
Proof. intros H. unfold update_city_object. by rewrite getitem_dict, H. Qed.

Lemma has_bag_Ok (joined : gmap string (list value)) (item : string * value) :
  is_Ok (update_city_object joined item) <-> has_bag item.
Proof.
  split.
  - intros [item' H]. apply update_city_object_Ok in H as (record & attrs & Hr & Ha & _).
    exists attrs. by rewrite Hr, getitem_dict, Ha.
  - intros [attrs Ha]. destruct item. by eapply update_city_object_bag.
Qed.

(** C4.  Merger totality.  The merge returns whenever every building
    record carries an attribute bag, and in the document it returns every
    building record, in order and none skipped, has the attribute ["uprn"]
    present and set to a list: the join result's list for its identifier
    when there is one, the empty list otherwise. *)
Theorem merge_total (joined : gmap string (list value)) (doc : value)
    (cos : list (string * value)) :
  py_getitem doc (VStr "CityObjects") = Ok (VDict cos) ->
  (Forall has_bag cos -> is_Ok (update_city_objects joined doc))
  /\ (forall doc',
        update_city_objects joined doc = Ok doc' ->
        exists cos',
          py_getitem doc' (VStr "CityObjects") = Ok (VDict cos')
          /\ Forall2 (fun item item' =>
                        item'.1 = item.1
                        /\ exists attributes',
                             py_getitem item'.2 (VStr "attributes") = Ok (VDict attributes')
                             /\ dict_get "uprn" attributes'
                                = Some (VList (default [] (joined !! item.1))))
                     cos cos').
Proof.
  intros Hcos. rewrite (update_city_objects_items _ _ _ Hcos). split.
  - intros Hbags. destruct (mapM_is_Ok (update_city_object joined) cos) as [items' ->].
    + eapply Forall_impl; [exact Hbags|]. intros item. apply has_bag_Ok.
    + by eexists.
  - intros doc' H. apply bind_Ok_inv in H as (items' & Hitems & [= <-]).
    exists items'. apply getitem_dict_inv in Hcos as (d & -> & _). split.
    + cbn [with_item]. by rewrite getitem_dict, dict_get_set_eq.
    + apply mapM_Ok_Forall2 in Hitems. eapply Forall2_impl; [exact Hitems|].
      intros item item' H.
      apply update_city_object_Ok in H as (record & attrs & _ & _ & ->).
      split; [reflexivity|]. eexists. cbn [snd]. split.
      * by rewrite getitem_dict, dict_get_set_eq.
      * apply dict_get_set_eq.
Qed.

Lemma merge_total_witness :
  let co := VDict [("geometry", VList []); ("attributes", VDict [("name", VStr "n")])] in
  let doc := VDict [("CityObjects", VDict [("b1", co); ("b2", co)]); ("vertices", VList [])] in
  let joined : gmap string (list value) := {["b1" := [VInt 101; VInt 103]]} in
  is_Ok (update_city_objects joined doc).
Proof.
  intros co doc joined.
  refine (proj1 (merge_total joined doc [("b1", co); ("b2", co)] _) _).
  - reflexivity.
  - repeat constructor; by eexists.
Defined.

(** C8.  Merger frame condition.  The document the merge returns differs
    from the one it was given in nothing but the entry ["uprn"] of each
    building record's attribute bag: every top-level entry other than
    ["CityObjects"] is as it was, the vertex table among them; the
    building records are the same, in the same order; and each record has
    its geometry, its other entries and its other attributes as they
    were. *)
Theorem merge_frame (joined : gmap string (list value)) (doc doc' : value) :
  update_city_objects joined doc = Ok doc' ->
  exists d d' cos cos',
    doc = VDict d /\ doc' = VDict d'
    /\ d'.*1 = d.*1
    /\ dict_without "CityObjects" d' = dict_without "CityObjects" d
    /\ py_getitem doc' (VStr "vertices") = py_getitem doc (VStr "vertices")
    /\ dict_get "CityObjects" d = Some (VDict cos)
    /\ dict_get "CityObjects" d' = Some (VDict cos')
    /\ Forall2 differs_in_uprn_only cos cos'.
Proof.
  intros H. unfold update_city_objects in H.
  apply bind_Ok_inv in H as (city_objects & Hco & H).
  apply bind_Ok_inv in H as (cos & Hitems & H).
  apply bind_Ok_inv in H as (cos' & Hm & [= <-]).
  apply getitem_dict_inv in Hco as (d & -> & Hd).
  destruct city_objects as [| | | | | |cos0]; try discriminate.
  injection Hitems as ->.
  exists d, (dict_set "CityObjects" (VDict cos') d), cos, cos'.
  split; [reflexivity|]. split; [reflexivity|].
  split; [by eapply dict_set_keys|].
  split; [apply dict_without_set|].
  split; [cbn [with_item]; by rewrite !getitem_dict, dict_get_set_ne|].
  split; [exact Hd|]. split; [apply dict_get_set_eq|].
  apply mapM_Ok_Forall2 in Hm. eapply Forall2_impl; [exact Hm|].
  intros item item' Hi.
  apply update_city_object_Ok in Hi as (record & attrs & Hr & Ha & ->).
  split; [reflexivity|]. cbn [snd].
  eexists record, _, attrs, _. split; [exact Hr|]. split; [reflexivity|].
  split; [by eapply dict_set_keys|].
  split; [apply dict_without_set|].
  split; [by rewrite dict_get_set_ne|].
  split; [exact Ha|]. split; [apply dict_get_set_eq|].
  apply dict_without_set.
Qed.

Lemma merge_frame_witness :
  let co := VDict [("geometry", VList [VInt 1]); ("attributes", VDict [("name", VStr "n")])] in
  let co' u := VDict [("geometry", VList [VInt 1]);
                      ("attributes", VDict [("name", VStr "n"); ("uprn", VList u)])] in
  let doc := VDict [("CityObjects", VDict [("b1", co); ("b2", co)]); ("vertices", VList [VInt 7])] in
  let doc' := VDict [("CityObjects", VDict [("b1", co' [VInt 101]); ("b2", co' [])]);
                     ("vertices", VList [VInt 7])] in
  exists d d' cos cos',
    doc = VDict d /\ doc' = VDict d'
    /\ d'.*1 = d.*1
    /\ dict_without "CityObjects" d' = dict_without "CityObjects" d
    /\ py_getitem doc' (VStr "vertices") = py_getitem doc (VStr "vertices")
    /\ dict_get "CityObjects" d = Some (VDict cos)
    /\ dict_get "CityObjects" d' = Some (VDict cos')
    /\ Forall2 differs_in_uprn_only cos cos'.
Proof.
  intros co co' doc doc'.
  apply (merge_frame {["b1" := [VInt 101]]} doc doc').
  reflexivity.
Defined.

(** C10.  The merge does not create a missing attribute bag.  If a
    building record has no ["attributes"] key the merge raises; where that
    record is the first on which the loop fails, the exception is
    [KeyError] for ["attributes"].  The merge returns exactly when every
    building record carries an attribute bag. *)
Theorem merge_requires_bag (joined : gmap string (list value)) (doc : value)
    (cos : list (string * value)) :
  py_getitem doc (VStr "CityObjects") = Ok (VDict cos) ->
  (forall co_id record,
      (co_id, VDict record) ∈ cos -> dict_get "attributes" record = None ->
      is_Raise (update_city_objects joined doc))
  /\ (forall pre co_id record post,
        cos = pre ++ (co_id, VDict record) :: post ->
        Forall has_bag pre ->
        dict_get "attributes" record = None ->
        update_city_objects joined doc = Raise (KeyError (VStr "attributes")))
  /\ (is_Ok (update_city_objects joined doc) <-> Forall has_bag cos).
Proof.
  intros Hcos. rewrite (update_city_objects_items _ _ _ Hcos). split; [|split].
  - intros co_id record Hin Hnone.
    destruct (mapM_Raise (update_city_object joined) cos (co_id, VDict record) Hin)
      as [e He].
    + eexists. by apply update_city_object_no_bag.
    + rewrite He. by eexists.
  - intros pre co_id record post -> Hpre Hnone.
    rewrite (mapM_app_Raise _ pre post (co_id, VDict record) (KeyError (VStr "attributes")));
      [reflexivity | | by apply update_city_object_no_bag].
    eapply Forall_impl; [exact Hpre|]. intros item. apply has_bag_Ok.
  - split.
    + intros [doc' H]. apply bind_Ok_inv in H as (items' & Hitems & _).
      apply mapM_Ok_Forall2 in Hitems. apply Forall_forall. intros item Hin.
      apply list_elem_of_lookup in Hin as [i Hi].
      destruct (Forall2_lookup_l _ _ _ _ _ Hitems Hi) as (item' & _ & H).
      apply (has_bag_Ok joined). by exists item'.
    + intros Hbags. destruct (mapM_is_Ok (update_city_object joined) cos) as [items' ->].
      * eapply Forall_impl; [exact Hbags|]. intros item. apply has_bag_Ok.
      * by eexists.
Qed.

Lemma merge_requires_bag_witness :
  let co := VDict [("geometry", VList []); ("attributes", VDict [])] in
  let bare := [("geometry", VList [])] in
  let doc := VDict [("CityObjects", VDict [("b1", co); ("b2", VDict bare)])] in
  update_city_objects ∅ doc = Raise (KeyError (VStr "attributes")).
Proof.
  intros co bare doc.
  refine (proj1 (proj2 (merge_requires_bag ∅ doc [("b1", co); ("b2", VDict bare)] _))
            [("b1", co)] "b2" bare [] _ _ _).
  - reflexivity.
  - reflexivity.
  - repeat constructor. by eexists.
  - reflexivity.
Defined.

(** ** Loading *)



(** ** The pipeline *)

Lemma spatial_join_lookup (within : Point -> Polygon -> bool)
    (uprn : GeoDataFrame AddressRow Point) (gdf : GeoDataFrame string Polygon)
    (id : string) (poly : Polygon) :
  NoDup (rows gdf).*1 -> (id, poly) ∈ rows gdf ->
  default [] (spatial_join within uprn gdf !! id) = points_within within uprn poly.
Proof.
  intros Hnd Hin. unfold spatial_join.
  rewrite groupby_lookup, (matched_of_sjoin within _ _ _ poly Hnd Hin).
  by destruct (points_within within uprn poly).
Qed.

(** X12.  End to end: when [main] returns, the document it hands to the
    writer carries the target tag, and each building record (identifiers
    being distinct) has under ["uprn"] the identifiers of the address
    points, reprojected, that lie within the polygon resolved for that
    record, in the order of the address table. *)
Theorem main_matches (transform : Z -> Z -> Point -> Point)
    (within : Point -> Polygon -> bool) (df : list AddressRow)
    (cm cm' : CityJSON) (cos : list (string * value)) :
  py_getitem (j cm) (VStr "CityObjects") = Ok (VDict cos) ->
  NoDup cos.*1 ->
  main transform within df cm = Ok cm' ->
  exists gdf cos',
    extract_geometry cm = Ok gdf
    /\ epsg cm' = Some TARGET_CRS
    /\ py_getitem (j cm') (VStr "CityObjects") = Ok (VDict cos')
    /\ forall i id co poly,
         cos !! i = Some (id, co) -> rows gdf !! i = Some (id, poly) ->
         exists co' attributes',
           cos' !! i = Some (id, co')
           /\ py_getitem co' (VStr "attributes") = Ok (VDict attributes')
           /\ dict_get "uprn" attributes'
              = Some (VList (points_within within (load_uprn transform df) poly)).
Proof.
  intros Hcos Hnd Hmain. unfold main in Hmain.
  change (extract_geometry (load_buildings cm)) with (extract_geometry cm) in Hmain.
  change (j (load_buildings cm)) with (j cm) in Hmain.
  apply bind_Ok_inv in Hmain as (gdf & Hgdf & Hmain).
  apply bind_Ok_inv in Hmain as (doc & Hdoc & [= <-]).
  rewrite (update_city_objects_items _ _ _ Hcos) in Hdoc.
  apply bind_Ok_inv in Hdoc as (cos' & Hcos' & [= <-]).
  exists gdf, cos'. split; [exact Hgdf|]. split; [reflexivity|]. cbn [j].
  pose proof Hgdf as Hrows. rewrite (extract_geometry_items _ _ Hcos) in Hrows.
  apply bind_Ok_inv in Hrows as (data & Hdata & [= <-]). cbn [rows] in *.
  apply mapM_Ok_Forall2 in Hdata. apply mapM_Ok_Forall2 in Hcos'.
  assert (Hids : data.*1 = cos.*1).
  { clear -Hdata. induction Hdata as [|item row cos data Hrow _ IH]; [reflexivity|].
    apply extract_row_Ok in Hrow as [Hid _]. cbn [fmap list_fmap]. by rewrite Hid, IH. }
  split.
  { apply getitem_dict_inv in Hcos as (d & Hd & _). rewrite Hd. cbn [with_item].
    by rewrite getitem_dict, dict_get_set_eq. }
  intros i id co poly Hi Hp.
  destruct (Forall2_lookup_l _ _ _ _ _ Hcos' Hi) as (item' & Hi' & Hitem).
  apply update_city_object_Ok in Hitem as (record & attrs & _ & _ & ->). cbn [fst snd] in Hi'.
  eexists _, _. split; [exact Hi'|]. split.
  - by rewrite getitem_dict, dict_get_set_eq.
  - rewrite dict_get_set_eq. do 2 f_equal.
    apply spatial_join_lookup; cbn [rows].
    + by rewrite Hids.
    + by eapply list_elem_of_lookup_2.
Qed.

(** * Further properties of the code *)

(** ** The boundary resolver *)

Lemma first_descent_of_list (b : value) :
  is_list b = true -> exists leaf, first_descent b = Some leaf.
Proof.
  induction b as [| | | | |l IH|d _] using value_nested_ind; try discriminate.
  intros _. destruct l as [|x l]; [by eexists|].
  apply Forall_cons_1 in IH as [IHx _].
  destruct x; try (by eexists). cbn [first_descent]. by apply IHx.
Qed.

Lemma getitem_list_index (vs : list value) (x c : value) :
  py_getitem (VList vs) x = Ok c <->
  exists i, as_index x = Some i /\ entry vs i = Some c.
Proof.
  destruct x as [|b|i| | | |]; cbn [py_getitem as_index];
    try (split; [discriminate | by intros (? & [=] & _)]);
    rewrite seq_index_entry.
  - destruct (entry vs (Z.b2z b)) as [c'|] eqn:He.
    + split; [intros [= <-]; eauto | by intros (? & [= <-] & ?); congruence].
    + split; [discriminate | by intros (? & [= <-] & ?); congruence].
  - destruct (entry vs i) as [c'|] eqn:He.
    + split; [intros [= <-]; eauto | by intros (? & [= <-] & ?); congruence].
    + split; [discriminate | by intros (? & [= <-] & ?); congruence].
Qed.

Lemma entry_elem (vs : list value) (i : Z) (c : value) :
  entry vs i = Some c -> c ∈ vs.
Proof.
  unfold entry. destruct (0 <=? i); [by apply list_elem_of_lookup_2|].
  destruct (_ <=? i); [by apply list_elem_of_lookup_2 | discriminate].
Qed.

(** What a returned polygon tells about the boundary reference. *)
Lemma get_exterior_ring_Ok_inv (vs : list value) (b : value) (p : Polygon) :
  get_exterior_ring (VList vs) b = Ok p ->
  exists leaf,
    first_descent b = Some leaf /\ leaf <> []
    /\ Forall2 (fun x c => py_getitem (VList vs) x = Ok c) leaf (shell p)
    /\ Polygon_raises (shell p) = None.
Proof.
  intros Hp. pose proof (get_exterior_ring_Ok_list _ _ _ Hp) as Hl.
  destruct (first_descent_of_list b Hl) as [leaf Hd]. exists leaf.
  rewrite (get_exterior_ring_descent _ _ _ Hd) in Hp.
  destruct leaf as [|x leaf]; [discriminate|].
  split; [exact Hd|]. split; [discriminate|].
  unfold exterior_ring_of_leaf in Hp. cbn [py_iter] in Hp. rewrite bind_Ok in Hp.
  apply bind_Ok_inv in Hp as (coords & Hm & Hp). unfold Polygon_new in Hp.
  destruct (Polygon_raises coords) as [e|] eqn:Hok; [discriminate|].
  injection Hp as <-. split; [by apply mapM_Ok_Forall2 | exact Hok].
Qed.

(** X1.  Only the first-descent leaf list counts: two boundary references
    with the same first-descent leaf list resolve alike, to the same
    polygon or to the same exception, whatever their sibling rings and
    surfaces hold and whatever the vertex table is. *)
Theorem get_exterior_ring_ignores_siblings (vertices b1 b2 : value)
    (leaf : list value) :
  first_descent b1 = Some leaf ->
  first_descent b2 = Some leaf ->
  get_exterior_ring vertices b1 = get_exterior_ring vertices b2.
Proof.
  intros H1 H2.
  by rewrite (get_exterior_ring_descent _ _ _ H1), (get_exterior_ring_descent _ _ _ H2).
Qed.

(** X2.  When [get_exterior_ring] returns.  Against a list as vertex
    table it returns a polygon exactly when the boundary reference is a
    list whose first-descent leaf list is not empty and holds only
    indices (integers, or booleans read as 0 and 1) that name an entry of
    the table, and the constructor accepts these entries; the polygon
    then has them as its vertices, one per index, in order. *)
Theorem get_exterior_ring_Ok_iff (vs : list value) (b : value) (p : Polygon) :
  get_exterior_ring (VList vs) b = Ok p <->
  exists leaf,
    first_descent b = Some leaf /\ leaf <> []
    /\ Forall2 (fun x c => exists i, as_index x = Some i /\ entry vs i = Some c)
         leaf (shell p)
    /\ Polygon_raises (shell p) = None.
Proof.
  split.
  - intros Hp. apply get_exterior_ring_Ok_inv in Hp as (leaf & Hd & Hne & Hf & Hok).
    exists leaf. split; [exact Hd|]. split; [exact Hne|]. split; [|exact Hok].
    eapply Forall2_impl; [exact Hf|]. intros x c. apply getitem_list_index.
  - intros (leaf & Hd & Hne & Hf & Hok).
    rewrite (get_exterior_ring_descent _ _ _ Hd).
    destruct leaf as [|x leaf]; [done|].
    unfold exterior_ring_of_leaf. cbn [py_iter]. rewrite bind_Ok.
    assert (Hm : mapM (py_getitem (VList vs)) (x :: leaf) = Ok (shell p)).
    { apply mapM_Ok_Forall2. eapply Forall2_impl; [exact Hf|].
      intros y c. apply getitem_list_index. }
    rewrite Hm, bind_Ok. unfold Polygon_new. rewrite Hok. by destruct p.
Qed.

(** X3.  A polygon returned against a list as vertex table is never
    empty, and each of its vertices is an entry of that table. *)
Theorem get_exterior_ring_vertices_from_table (vs : list value) (b : value)
    (p : Polygon) :
  get_exterior_ring (VList vs) b = Ok p ->
  shell p <> [] /\ Forall (fun c => c ∈ vs) (shell p).
Proof.
  intros Hp. apply get_exterior_ring_Ok_inv in Hp as (leaf & _ & Hne & Hf & _). split.
  - intros Hnil. rewrite Hnil in Hf. by inversion Hf.
  - apply Forall_forall. intros c Hc.
    apply list_elem_of_lookup in Hc as [k Hk].
    destruct (Forall2_lookup_r _ _ _ _ _ Hf Hk) as (x & _ & Hx).
    apply getitem_list_index in Hx as (i & _ & Hi). by eapply entry_elem.
Qed.

Lemma mapM_ext {A B} (f g : A -> result B) (l : list A) :
  Forall (fun x => f x = g x) l -> mapM f l = mapM g l.
Proof.
  induction 1 as [|x l Hx _ IH]; [reflexivity|].
  by rewrite !mapM_cons, Hx, IH.
Qed.

Lemma entry_app (vs more : list value) (i : Z) :
  0 <= i < Z.of_nat (length vs) -> entry (vs ++ more) i = entry vs i.
Proof.
  intros Hi. unfold entry. destruct (Z.leb_spec 0 i); [|lia].
  apply lookup_app_l. lia.
Qed.

(** X4.  Vertices appended to the vertex table do not disturb what is
    already resolved: a boundary reference whose first-descent leaf list
    holds indices [0 <= i < n] only resolves to the same polygon against
    the table of [n] entries and against any extension of it. *)
Theorem get_exterior_ring_table_extended (vs more : list value) (b : value)
    (idx : list Z) :
  first_descent b = Some (VInt <$> idx) ->
  Forall (fun i => 0 <= i < Z.of_nat (length vs)) idx ->
  get_exterior_ring (VList (vs ++ more)) b = get_exterior_ring (VList vs) b.
Proof.
  intros Hd Hidx. rewrite !(get_exterior_ring_descent _ _ _ Hd).
  destruct (VInt <$> idx) as [|x leaf] eqn:Hleaf; [reflexivity|].
  unfold exterior_ring_of_leaf. cbn [py_iter]. rewrite !bind_Ok.
  rewrite (mapM_ext (py_getitem (VList (vs ++ more))) (py_getitem (VList vs)));
    [reflexivity|].
  rewrite <- Hleaf. apply Forall_fmap. eapply Forall_impl; [exact Hidx|].
  intros i Hi. unfold compose. cbn [py_getitem]. by rewrite !seq_index_entry, entry_app.
Qed.

(** ** Geometry extraction *)

(** X5.  Only the first geometry entry of a city object is read: the
    entries after it (whatever their type tags) and the other keys of the
    record have no part in what the loop body returns or raises. *)
Theorem extract_row_first_geometry_only (doc : value) (co_id : string)
    (record : list (string * value)) (g0 : value) (others : list value) :
  dict_get "geometry" record = Some (VList (g0 :: others)) ->
  extract_row doc (co_id, VDict record)
  = extract_row doc (co_id, VDict [("geometry", VList [g0])]).
Proof.
  intros Hg. unfold extract_row, geometry_type_of, boundaries_of.
  rewrite !getitem_dict, Hg. cbn [dict_get String.eqb Ascii.eqb Bool.eqb].
  rewrite !bind_Ok. cbn [py_getitem]. by rewrite !seq_index_head.
Qed.

Lemma mapM_Raise_first {A B} (f : A -> result B) (l : list A) (e : exn) :
  mapM f l = Raise e <->
  exists pre x post,
    l = pre ++ x :: post /\ Forall (fun y => is_Ok (f y)) pre /\ f x = Raise e.
Proof.
  split.
  - induction l as [|x l IH]; [discriminate|].
    rewrite mapM_cons. destruct (f x) as [y|e'] eqn:Hx.
    + rewrite bind_Ok. destruct (mapM f l) as [k|e'] eqn:Hl; [discriminate|].
      intros [= ->]. destruct IH as (pre & z & post & -> & Hpre & Hz); [reflexivity|].
      exists (x :: pre), z, post. split; [reflexivity|]. split; [|exact Hz].
      constructor; [by exists y | exact Hpre].
    + intros [= ->]. exists [], x, l. split; [reflexivity|]. split; [constructor | exact Hx].
  - intros (pre & x & post & -> & Hpre & Hx). by apply mapM_app_Raise.
Qed.

(** X6.  Which exception [extract_geometry] raises.  When the city objects
    can be iterated, [extract_geometry] raises [e] exactly when some city
    object raises [e] in the loop body and every city object before it, in
    document order, went through: the first failure decides, later
    records are never looked at. *)
Theorem extract_geometry_first_failure (cm : CityJSON)
    (cos : list (string * value)) (e : exn) :
  py_getitem (j cm) (VStr "CityObjects") = Ok (VDict cos) ->
  extract_geometry cm = Raise e <->
  exists pre item post,
    cos = pre ++ item :: post
    /\ Forall (fun it => is_Ok (extract_row (j cm) it)) pre
    /\ extract_row (j cm) item = Raise e.
Proof.
  intros Hcos. rewrite (extract_geometry_items _ _ Hcos), <- mapM_Raise_first.
  destruct (mapM (extract_row (j cm)) cos) as [data|e']; [split; discriminate|].
  split; intros H; cbn in H; injection H as ->; reflexivity.
Qed.

(** ** The attribute merge *)

Lemma dict_set_set (k : string) (v1 v2 : value) (d : list (string * value)) :
  dict_set k v2 (dict_set k v1 d) = dict_set k v2 d.
Proof.
  induction d as [|[k' v'] d IH]; cbn [dict_set].
  - by rewrite String.eqb_refl.
  - destruct (String.eqb k' k) eqn:Hk; cbn [dict_set]; rewrite Hk; [reflexivity|].
    by rewrite IH.
Qed.

Lemma dict_set_keys_new (k : string) (v : value) (d : list (string * value)) :
  dict_get k d = None -> (dict_set k v d).*1 = d.*1 ++ [k].
Proof.
  induction d as [|[k' v'] d IH]; [reflexivity|].
  cbn [dict_get dict_set]. destruct (String.eqb k' k); [discriminate|].
  intros H. cbn [fmap list_fmap fst app]. f_equal. by apply IH.
Qed.

(** The loop body run on what it returned. *)
Lemma update_city_object_again (joined1 joined2 : gmap string (list value))
    (item item1 : string * value) :
  update_city_object joined1 item = Ok item1 ->
  update_city_object joined2 item1 = update_city_object joined2 item.
Proof.
  intros H. apply update_city_object_Ok in H as (record & attrs & Hr & Ha & ->).
  destruct item as [co_id co]. cbn [fst snd] in *. subst co.
  unfold update_city_object. rewrite !getitem_dict, dict_get_set_eq, Ha, !bind_Ok.
  cbn [py_setitem]. rewrite !bind_Ok. cbn [with_item mret result_ret].
  by rewrite !dict_set_set.
Qed.

Lemma update_city_objects_again (joined1 joined2 : gmap string (list value))
    (doc doc1 : value) :
  update_city_objects joined1 doc = Ok doc1 ->
  update_city_objects joined2 doc1 = update_city_objects joined2 doc.
Proof.
  intros H. unfold update_city_objects in H.
  apply bind_Ok_inv in H as (city_objects & Hco & H).
  apply bind_Ok_inv in H as (cos & Hitems & H).
  apply bind_Ok_inv in H as (cos1 & Hm & [= <-]).
  apply getitem_dict_inv in Hco as (d & -> & Hd).
  destruct city_objects as [| | | | | |cos0]; try discriminate.
  injection Hitems as ->.
  rewrite (update_city_objects_items joined2 (VDict d) cos)
    by (by rewrite getitem_dict, Hd).
  rewrite (update_city_objects_items joined2 _ cos1)
    by (cbn [with_item]; by rewrite getitem_dict, dict_get_set_eq).
  assert (Hsame : mapM (update_city_object joined2) cos1
                  = mapM (update_city_object joined2) cos).
  { apply mapM_Ok_Forall2 in Hm. clear Hd.
    induction Hm as [|item item1 cos cos1 Hitem _ IH]; [reflexivity|].
    by rewrite !mapM_cons, IH, (update_city_object_again _ _ _ _ Hitem). }
  rewrite Hsame.
  destruct (mapM (update_city_object joined2) cos) as [items'|e]; [|reflexivity].
  rewrite !bind_Ok. cbn [with_item mret result_ret]. by rewrite dict_set_set.
Qed.

(** X7.  The merge overwrites.  Run on a document it has already
    returned, the merge gives what it gives on the original document: an
    earlier ["uprn"] is replaced, never extended.  With the same join
    result the merge is idempotent. *)
Theorem merge_overwrites (joined1 joined2 : gmap string (list value))
    (doc doc1 : value) :
  update_city_objects joined1 doc = Ok doc1 ->
  update_city_objects joined2 doc1 = update_city_objects joined2 doc
  /\ update_city_objects joined1 doc1 = Ok doc1.
Proof.
  intros H. split; [by eapply update_city_objects_again|].
  by rewrite (update_city_objects_again _ _ _ _ H).
Qed.

Lemma merge_overwrites_witness :
  let doc u := VDict [("CityObjects",
                       VDict [("b1", city_object "MultiSurface" (VList []) u)])] in
  let old := [("name", VStr "hall"); ("uprn", VList [VInt 1; VInt 2])] in
  let new := [("name", VStr "hall"); ("uprn", VList [VInt 3])] in
  update_city_objects ∅ (doc new) = update_city_objects ∅ (doc old)
  /\ update_city_objects {["b1" := [VInt 3]]} (doc new) = Ok (doc new).
Proof.
  intros doc old new.
  apply (merge_overwrites {["b1" := [VInt 3]]} ∅ (doc old) (doc new)).
  reflexivity.
Defined.

(** X8.  Where ["uprn"] lands in the attribute bag.  In every building
    record of the returned document the attribute keys are those of the
    original bag in their order; ["uprn"] keeps its place when the bag
    had one, and is appended as the last key when it had none. *)
Theorem merge_attribute_order (joined : gmap string (list value))
    (doc doc' : value) (cos cos' : list (string * value)) :
  update_city_objects joined doc = Ok doc' ->
  py_getitem doc (VStr "CityObjects") = Ok (VDict cos) ->
  py_getitem doc' (VStr "CityObjects") = Ok (VDict cos') ->
  Forall2 (fun item item' =>
             exists attributes attributes',
               py_getitem item.2 (VStr "attributes") = Ok (VDict attributes)
               /\ py_getitem item'.2 (VStr "attributes") = Ok (VDict attributes')
               /\ attributes'.*1
                  = match dict_get "uprn" attributes with
                    | Some _ => attributes.*1
                    | None => attributes.*1 ++ ["uprn"]
                    end)
          cos cos'.
Proof.
  intros H Hcos Hcos'. rewrite (update_city_objects_items _ _ _ Hcos) in H.
  apply bind_Ok_inv in H as (items' & Hm & [= <-]).
  apply getitem_dict_inv in Hcos as (d & -> & Hd). cbn [with_item] in Hcos'.
  rewrite getitem_dict, dict_get_set_eq in Hcos'. injection Hcos' as <-.
  apply mapM_Ok_Forall2 in Hm. eapply Forall2_impl; [exact Hm|].
  intros item item' Hi.
  apply update_city_object_Ok in Hi as (record & attrs & Hr & Ha & ->).
  exists attrs, (dict_set "uprn" (VList (default [] (joined !! item.1))) attrs).
  cbn [snd]. split; [by rewrite Hr, getitem_dict, Ha|].
  split; [by rewrite getitem_dict, dict_get_set_eq|].
  destruct (dict_get "uprn" attrs) as [v|] eqn:Hu.
  - by eapply dict_set_keys.
  - by apply dict_set_keys_new.
Qed.

Lemma merge_attribute_order_witness :
  let doc a b := VDict [("CityObjects",
                         VDict [("b1", city_object "MultiSurface" (VList []) a);
                                ("b2", city_object "MultiSurface" (VList []) b)])] in
  let cos a b := [("b1", city_object "MultiSurface" (VList []) a);
                  ("b2", city_object "MultiSurface" (VList []) b)] in
  Forall2 (fun item item' =>
             exists attributes attributes',
               py_getitem item.2 (VStr "attributes") = Ok (VDict attributes)
               /\ py_getitem item'.2 (VStr "attributes") = Ok (VDict attributes')
               /\ attributes'.*1
                  = match dict_get "uprn" attributes with
                    | Some _ => attributes.*1
                    | None => attributes.*1 ++ ["uprn"]
                    end)
          (cos [("uprn", VNone); ("name", VStr "hall")] [("name", VStr "shed")])
          (cos [("uprn", VList []); ("name", VStr "hall")]
               [("name", VStr "shed"); ("uprn", VList [])]).
Proof.
  intros doc cos.
  apply (merge_attribute_order ∅
           (doc [("uprn", VNone); ("name", VStr "hall")] [("name", VStr "shed")])
           (doc [("uprn", VList []); ("name", VStr "hall")]
                [("name", VStr "shed"); ("uprn", VList [])]));
    reflexivity.
Defined.

(** X9.  The merge reads the join result at the identifiers of the
    document only, and an identifier with an empty list counts as one
    with no entry: two join results that give the same list (or none) for
    every building identifier of the document merge alike, whatever else
    they hold. *)
Theorem merge_reads_document_ids (joined1 joined2 : gmap string (list value))
    (doc : value) (cos : list (string * value)) :
  py_getitem doc (VStr "CityObjects") = Ok (VDict cos) ->
  (forall co_id, co_id ∈ cos.*1 ->
                 default [] (joined1 !! co_id) = default [] (joined2 !! co_id)) ->
  update_city_objects joined1 doc = update_city_objects joined2 doc.
Proof.
  intros Hcos Hsame. rewrite !(update_city_objects_items _ _ _ Hcos).
  rewrite (mapM_ext (update_city_object joined1) (update_city_object joined2));
    [reflexivity|].
  apply Forall_forall. intros [co_id co] Hin. unfold update_city_object.
  rewrite !matched_value, (Hsame co_id); [reflexivity|].
  apply list_elem_of_fmap. by exists (co_id, co).
Qed.

Lemma merge_reads_document_ids_witness :
  let doc := VDict [("CityObjects",
                     VDict [("b1", city_object "MultiSurface" (VList []) [])])] in
  update_city_objects {["b1" := [VInt 7]; "gone" := [VInt 8]]} doc
  = update_city_objects {["b1" := [VInt 7]]} doc.
Proof.
  intros doc.
  apply (merge_reads_document_ids _ _ doc
           [("b1", city_object "MultiSurface" (VList []) [])]).
  - reflexivity.
  - intros co_id Hin. apply list_elem_of_singleton in Hin as ->. reflexivity.
Defined.

(** X10.  An attribute bag that is not a dictionary.  If the
    ["attributes"] entry of a building record is anything but a
    dictionary ([null], a list, a string, a number), the merge raises
    [TypeError] at that record, every record before it carrying a bag; the
    entry is not replaced by a fresh bag. *)
Theorem merge_rejects_non_dict_bag (joined : gmap string (list value))
    (doc : value) (pre post : list (string * value)) (co_id : string)
    (record : list (string * value)) (bag : value) :
  py_getitem doc (VStr "CityObjects")
  = Ok (VDict (pre ++ (co_id, VDict record) :: post)) ->
  Forall has_bag pre ->
  dict_get "attributes" record = Some bag ->
  (forall attributes, bag <> VDict attributes) ->
  update_city_objects joined doc = Raise TypeError.
Proof.
  intros Hcos Hpre Hbag Hnot. rewrite (update_city_objects_items _ _ _ Hcos).
  rewrite (mapM_app_Raise _ pre post (co_id, VDict record) TypeError); [reflexivity| |].
  - eapply Forall_impl; [exact Hpre|]. intros item. apply has_bag_Ok.
  - unfold update_city_object. rewrite getitem_dict, Hbag, bind_Ok.
    destruct bag; try reflexivity. by destruct (Hnot d).
Qed.

Lemma merge_rejects_non_dict_bag_witness :
  update_city_objects ∅
    (VDict [("CityObjects",
             VDict [("b1", city_object "MultiSurface" (VList []) []);
                    ("b2", VDict [("attributes", VNone)])])])
  = Raise TypeError.
Proof.
  apply (merge_rejects_non_dict_bag ∅ _
           [("b1", city_object "MultiSurface" (VList []) [])] [] "b2"
           [("attributes", VNone)] VNone).
  - reflexivity.
  - repeat constructor. by eexists.
  - reflexivity.
  - discriminate.
Defined.

(** ** The pipeline *)

(** X11.  What [main] needs to reach the writer.  [main] gets to the
    hand-over to [cityjson.save] only if [extract_geometry] returns and
    every building record carries an attribute bag: when
    [extract_geometry] raises, [main] raises the same exception, before
    the join; and when a building record has no bag, [main] raises. *)
Theorem main_returns_only_if (transform : Z -> Z -> Point -> Point)
    (within : Point -> Polygon -> bool) (df : list AddressRow)
    (cm : CityJSON) (cos : list (string * value)) :
  py_getitem (j cm) (VStr "CityObjects") = Ok (VDict cos) ->
  (is_Ok (main transform within df cm) ->
   is_Ok (extract_geometry cm) /\ Forall has_bag cos)
  /\ (forall e, extract_geometry cm = Raise e ->
                main transform within df cm = Raise e)
  /\ (~ Forall has_bag cos -> is_Raise (main transform within df cm)).
Proof.
  intros Hcos.
  assert (Hnec : is_Ok (main transform within df cm) ->
                 is_Ok (extract_geometry cm) /\ Forall has_bag cos).
  { unfold main.
    change (extract_geometry (load_buildings cm)) with (extract_geometry cm).
    change (j (load_buildings cm)) with (j cm).
    destruct (extract_geometry cm) as [gdf|e0]; [|by intros [? [=]]].
    rewrite bind_Ok.
    set (joined := spatial_join within (load_uprn transform df) gdf).
    rewrite (update_city_objects_items _ _ _ Hcos).
    intros [cm' H]. split; [by eexists|].
    apply bind_Ok_inv in H as (doc & H & _).
    apply bind_Ok_inv in H as (items' & Hm & _).
    apply mapM_Ok_Forall2 in Hm. apply Forall_forall. intros item Hin.
    apply list_elem_of_lookup in Hin as [i Hi].
    destruct (Forall2_lookup_l _ _ _ _ _ Hm Hi) as (item' & _ & H).
    apply (has_bag_Ok joined). by exists item'. }
  split; [exact Hnec|]. split.
  - intros e He. by apply main_extract_Raise.
  - intros Hnot. destruct (main transform within df cm) as [cm'|e] eqn:Hm.
    + destruct Hnot. apply Hnec. by eexists.
    + by eexists.
Qed.

Lemma extract_row_reads (doc doc' : value) (co_id : string) (co co' : value) :
  py_getitem doc (VStr "vertices") = py_getitem doc' (VStr "vertices") ->
  py_getitem co (VStr "geometry") = py_getitem co' (VStr "geometry") ->
  extract_row doc (co_id, co) = extract_row doc' (co_id, co').
Proof.
  intros Hv Hg. unfold extract_row, geometry_type_of, boundaries_of. rewrite Hg.
  destruct (py_getitem co' (VStr "geometry")) as [g|e]; [|reflexivity].
  rewrite !bind_Ok. destruct (py_getitem g (VInt 0)) as [g0|e]; [|reflexivity].
  rewrite !bind_Ok. destruct (py_getitem g0 (VStr "type")) as [t|e]; [|reflexivity].
  rewrite !bind_Ok. destruct (negb _); [reflexivity|].
  destruct (py_getitem g0 (VStr "boundaries")) as [b|e]; [|reflexivity].
  rewrite !bind_Ok. by rewrite Hv.
Qed.

(** Extraction reads nothing the merge writes. *)
Lemma extract_geometry_after_update (joined : gmap string (list value))
    (cm cm' : CityJSON) :
  update_city_objects joined (j cm) = Ok (j cm') ->
  extract_geometry cm' = extract_geometry cm.
Proof.
  intros H. unfold update_city_objects in H.
  apply bind_Ok_inv in H as (city_objects & Hco & H).
  apply bind_Ok_inv in H as (cos & Hitems & H).
  apply bind_Ok_inv in H as (cos' & Hm & [= H]).
  apply getitem_dict_inv in Hco as (d & Hj & Hd).
  destruct city_objects as [| | | | | |cos0]; try discriminate.
  injection Hitems as ->. rewrite Hj in H. cbn [with_item] in H.
  rewrite (extract_geometry_items cm cos) by (by rewrite Hj, getitem_dict, Hd).
  rewrite (extract_geometry_items cm' cos')
    by (by rewrite <- H, getitem_dict, dict_get_set_eq).
  assert (Hv : py_getitem (j cm') (VStr "vertices") = py_getitem (j cm) (VStr "vertices")).
  { by rewrite <- H, Hj, !getitem_dict, dict_get_set_ne. }
  assert (Hsame : mapM (extract_row (j cm')) cos' = mapM (extract_row (j cm)) cos).
  { apply mapM_Ok_Forall2 in Hm. clear -Hm Hv.
    induction Hm as [|item item' cos cos' Hitem _ IH]; [reflexivity|].
    rewrite !mapM_cons, IH. f_equal.
    apply update_city_object_Ok in Hitem as (record & attrs & Hr & _ & ->).
    destruct item as [co_id co]. cbn [fst snd] in *. subst co.
    apply extract_row_reads; [exact Hv|].
    by rewrite !getitem_dict, dict_get_set_ne. }
  by rewrite Hsame.
Qed.

(** X13.  [main] is idempotent: run again on the document it returned,
    with the same address table, it returns that document unchanged. *)
Theorem main_idempotent (transform : Z -> Z -> Point -> Point)
    (within : Point -> Polygon -> bool) (df : list AddressRow) (cm cm' : CityJSON) :
  main transform within df cm = Ok cm' ->
  main transform within df cm' = Ok cm'.
Proof.
  intros H. unfold main in *.
  change (extract_geometry (load_buildings cm)) with (extract_geometry cm) in H.
  change (j (load_buildings cm)) with (j cm) in H.
  change (extract_geometry (load_buildings cm')) with (extract_geometry cm').
  change (j (load_buildings cm')) with (j cm').
  apply bind_Ok_inv in H as (gdf & Hgdf & H).
  apply bind_Ok_inv in H as (doc & Hdoc & [= <-]). cbn [j] in *.
  set (joined := spatial_join within (load_uprn transform df) gdf) in *.
  rewrite (extract_geometry_after_update joined cm {| j := doc; epsg := _ |} Hdoc).
  rewrite Hgdf, bind_Ok. fold joined.
  by rewrite (update_city_objects_again joined joined _ _ Hdoc), Hdoc.
Qed.

(** X14.  [main] leaves the footprints alone: the document it returns
    extracts to the very frame of polygons (or to the very exception) the
    document it was given extracts to. *)
Theorem main_keeps_footprints (transform : Z -> Z -> Point -> Point)
    (within : Point -> Polygon -> bool) (df : list AddressRow) (cm cm' : CityJSON) :
  main transform within df cm = Ok cm' ->
  extract_geometry cm' = extract_geometry cm.
Proof.
  intros H. unfold main in H.
  change (j (load_buildings cm)) with (j cm) in H.
  apply bind_Ok_inv in H as (gdf & _ & H).
  apply bind_Ok_inv in H as (doc & Hdoc & [= <-]).
  by eapply extract_geometry_after_update.
Qed.

(** X15.  No addresses.  With an empty address table the join has no
    row, and every building record of the document [main] returns has
    ["uprn"] present and equal to the empty list. *)
Theorem main_no_addresses (transform : Z -> Z -> Point -> Point)
    (within : Point -> Polygon -> bool) (cm cm' : CityJSON)
    (cos' : list (string * value)) :
  main transform within [] cm = Ok cm' ->
  py_getitem (j cm') (VStr "CityObjects") = Ok (VDict cos') ->
  Forall (fun item' =>
            exists attributes',
              py_getitem item'.2 (VStr "attributes") = Ok (VDict attributes')
              /\ dict_get "uprn" attributes' = Some (VList []))
         cos'.
Proof.
  intros H Hcos'. unfold main in H.
  change (j (load_buildings cm)) with (j cm) in H.
  apply bind_Ok_inv in H as (gdf & _ & H).
  apply bind_Ok_inv in H as (doc & Hdoc & [= <-]). cbn [j] in Hcos'.
  change (spatial_join within (load_uprn transform []) gdf)
    with (∅ : gmap string (list value)) in Hdoc.
  unfold update_city_objects in Hdoc.
  apply bind_Ok_inv in Hdoc as (city_objects & Hco & H).
  apply bind_Ok_inv in H as (cos & Hitems & H).
  apply bind_Ok_inv in H as (items' & Hm & [= <-]).
  apply getitem_dict_inv in Hco as (d & Hj & Hd). rewrite Hj in Hcos'.
  cbn [with_item] in Hcos'.
  rewrite getitem_dict, dict_get_set_eq in Hcos'. injection Hcos' as <-.
  apply mapM_Ok_Forall2 in Hm. apply Forall_forall. intros item' Hin.
  apply list_elem_of_lookup in Hin as [i Hi].
  destruct (Forall2_lookup_r _ _ _ _ _ Hm Hi) as (item & _ & H).
  apply update_city_object_Ok in H as (record & attrs & _ & _ & ->).
  eexists. cbn [snd]. split; [by rewrite getitem_dict, dict_get_set_eq|].
  by rewrite dict_get_set_eq, lookup_empty.
Qed.

End Shapely.

(** * The theorems on concrete inputs *)

(** The constructor check of these instances is [ring_check]; the
    coordinates are planar already, and the transform leaves a point
    where it is. *)


Lemma get_exterior_ring_nesting_invariant_witness :
  let B := VList [VInt 0; VInt 1; VInt 2; VInt 3] in
  get_exterior_ring ring_check (VList square) (VList [B]) = Ok (mkPolygon square)
  /\ get_exterior_ring ring_check (VList square) (VList [VList [B]])
     = Ok (mkPolygon square).
Proof.
  intros B.
  apply (get_exterior_ring_nesting_invariant ring_check square B (mkPolygon square) 2).
  reflexivity.
Defined.

Lemma get_exterior_ring_fatal_witness :
  get_exterior_ring ring_check (VList square) (VList [VList [VInt 0; VInt 1; VInt 4]])
  = Raise IndexError.
Proof.
  refine (proj2 (proj2 (proj2 (get_exterior_ring_fatal ring_check VNone square
            (VList [VList [VInt 0; VInt 1; VInt 4]])))) [0; 1; 4] 4 _ _ _).
  - reflexivity.
  - set_solver.
  - cbn. lia.
Defined.



Lemma extract_geometry_fail_fast_witness :
  let ring := VList [VList [VList [VInt 0; VInt 1; VInt 2; VInt 3]]] in
  let cos := [("b1", city_object "MultiSurface" ring []);
              ("b2", city_object "Solid" ring [])] in
  let cm := {| j := VDict [("CityObjects", VDict cos); ("vertices", VList square)];
               epsg := None |} in
  extract_geometry ring_check cm
  = Raise (ValueError "Unexpected surface type: " (VStr "Solid"))
  /\ forall transform within df,
       main ring_check transform within df cm
       = Raise (ValueError "Unexpected surface type: " (VStr "Solid")).
Proof.
  intros ring cos cm.
  refine (proj1 (proj2 (extract_geometry_fail_fast ring_check cm cos _))
            [("b1", city_object "MultiSurface" ring [])] "b2"
            (city_object "Solid" ring []) [] (VStr "Solid") _ _ _ _).
  - reflexivity.
  - reflexivity.
  - repeat constructor. by eexists.
  - reflexivity.
  - discriminate.
Defined.

Lemma get_exterior_ring_ignores_siblings_witness :
  get_exterior_ring ring_check (VList square)
    (VList [VList [VList [VInt 0; VInt 1; VInt 2]; VList [VInt 9; VStr "hole"]];
            VList [VNone]])
  = get_exterior_ring ring_check (VList square) (VList [VInt 0; VInt 1; VInt 2]).
Proof.
  apply (get_exterior_ring_ignores_siblings ring_check _ _ _ [VInt 0; VInt 1; VInt 2]);
    reflexivity.
Defined.

Lemma get_exterior_ring_vertices_from_table_witness :
  shell (mkPolygon [VList [VInt 2; VInt 0]; VList [VInt 0; VInt 2]; VList [VInt 0; VInt 0]])
    <> []
  /\ Forall (fun c => c ∈ square)
       (shell (mkPolygon [VList [VInt 2; VInt 0]; VList [VInt 0; VInt 2];
                          VList [VInt 0; VInt 0]])).
Proof.
  apply (get_exterior_ring_vertices_from_table ring_check square
           (VList [VList [VInt (-1); VBool true; VInt 0]])).
  reflexivity.
Defined.

Lemma get_exterior_ring_table_extended_witness :
  get_exterior_ring ring_check (VList (square ++ [VList [VInt 5; VInt 5]]))
    (VList [VList [VInt 0; VInt 1; VInt 3]])
  = get_exterior_ring ring_check (VList square) (VList [VList [VInt 0; VInt 1; VInt 3]]).
Proof.
  apply (get_exterior_ring_table_extended ring_check square _ _ [0; 1; 3]).
  - reflexivity.
  - repeat constructor; cbn; lia.
Defined.

Lemma extract_row_first_geometry_only_witness :
  let ring := VList [VList [VInt 0; VInt 1; VInt 2; VInt 3]] in
  let entry tag := VDict [("type", VStr tag); ("boundaries", ring)] in
  extract_row ring_check (VDict [("vertices", VList square)])
    ("b1", VDict [("type", VStr "Building");
                  ("geometry", VList [entry "MultiSurface"; entry "Solid"])])
  = extract_row ring_check (VDict [("vertices", VList square)])
      ("b1", VDict [("geometry", VList [entry "MultiSurface"])]).
Proof.
  intros ring entry.
  apply (extract_row_first_geometry_only ring_check _ _ _ _ [entry "Solid"]).
  reflexivity.
Defined.

Lemma extract_geometry_first_failure_witness :
  let ring := VList [VList [VList [VInt 0; VInt 1; VInt 2; VInt 3]]] in
  let cos := [("b1", city_object "MultiSurface" ring []);
              ("b2", city_object "MultiSurface" (VList []) []);
              ("b3", city_object "Solid" ring [])] in
  let cm := {| j := VDict [("CityObjects", VDict cos); ("vertices", VList square)];
               epsg := None |} in
  extract_geometry ring_check cm = Raise IndexError.
Proof.
  intros ring cos cm.
  apply (extract_geometry_first_failure ring_check cm cos IndexError); [reflexivity|].
  exists [("b1", city_object "MultiSurface" ring [])],
         ("b2", city_object "MultiSurface" (VList []) []),
         [("b3", city_object "Solid" ring [])].
  split; [reflexivity|]. split; [|reflexivity].
  repeat constructor. by eexists.
Defined.

Lemma main_returns_only_if_witness :
  let ring := VList [VList [VList [VInt 0; VInt 1; VInt 2; VInt 3]]] in
  let cos := [("b1", city_object "Solid" ring [])] in
  let cm := {| j := VDict [("CityObjects", VDict cos); ("vertices", VList square)];
               epsg := None |} in
  main ring_check (fun _ _ p => p) in_bounding_box
    [mkAddressRow (VStr "U1") (VInt 1) (VInt 1)] cm
  = Raise (ValueError "Unexpected surface type: " (VStr "Solid")).
Proof.
  intros ring cos cm.
  refine (proj1 (proj2 (main_returns_only_if ring_check (fun _ _ p => p)
            in_bounding_box [mkAddressRow (VStr "U1") (VInt 1) (VInt 1)] cm cos _)) _ _);
    reflexivity.
Defined.

Lemma main_matches_witness :
  let df := [mkAddressRow (VStr "U1") (VInt 1) (VInt 1);
             mkAddressRow (VStr "U2") (VInt 5) (VInt 5)] in
  let cm' := {| j := j (one_building [("uprn", VList [VStr "U1"])]);
                epsg := Some TARGET_CRS |} in
  exists gdf cos',
    extract_geometry ring_check (one_building []) = Ok gdf
    /\ epsg cm' = Some TARGET_CRS
    /\ py_getitem (j cm') (VStr "CityObjects") = Ok (VDict cos')
    /\ forall i id co poly,
         [("b1", city_object "MultiSurface"
                   (VList [VList [VList [VInt 0; VInt 1; VInt 2; VInt 3]]]) [])] !! i
         = Some (id, co) ->
         rows gdf !! i = Some (id, poly) ->
         exists co' attributes',
           cos' !! i = Some (id, co')
           /\ py_getitem co' (VStr "attributes") = Ok (VDict attributes')
           /\ dict_get "uprn" attributes'
              = Some (VList (points_within in_bounding_box
                               (load_uprn (fun _ _ p => p) df) poly)).
Proof.
  intros df cm'.
  apply (main_matches ring_check (fun _ _ p => p) in_bounding_box df
           (one_building []) cm').
  - reflexivity.
  - cbn. apply NoDup_singleton.
  - reflexivity.
Defined.

Lemma main_idempotent_witness :
  main ring_check (fun _ _ p => p) in_bounding_box
    [mkAddressRow (VStr "U1") (VInt 1) (VInt 1)]
    {| j := j (one_building [("uprn", VList [VStr "U1"])]); epsg := Some TARGET_CRS |}
  = Ok {| j := j (one_building [("uprn", VList [VStr "U1"])]); epsg := Some TARGET_CRS |}.
Proof.
  apply (main_idempotent ring_check _ _ _ (one_building [])). reflexivity.
Defined.

Lemma main_keeps_footprints_witness :
  extract_geometry ring_check
    {| j := j (one_building [("uprn", VList [VStr "U1"])]); epsg := Some TARGET_CRS |}
  = extract_geometry ring_check (one_building []).
Proof.
  apply (main_keeps_footprints ring_check (fun _ _ p => p) in_bounding_box
           [mkAddressRow (VStr "U1") (VInt 1) (VInt 1)]).
  reflexivity.
Defined.

Lemma main_no_addresses_witness :
  Forall (fun item' =>
            exists attributes',
              py_getitem item'.2 (VStr "attributes") = Ok (VDict attributes')
              /\ dict_get "uprn" attributes' = Some (VList []))
         [("b1", city_object "MultiSurface"
                   (VList [VList [VList [VInt 0; VInt 1; VInt 2; VInt 3]]])
                   [("uprn", VList [])])].
Proof.
  apply (main_no_addresses ring_check (fun _ _ p => p) in_bounding_box (one_building [])
           {| j := j (one_building [("uprn", VList [])]); epsg := Some TARGET_CRS |});
    reflexivity.
Defined.

(** ** End-to-end scenarios *)

Example scenario_A :
  main ring_check (fun _ _ p => p) in_bounding_box
    [mkAddressRow (VStr "U1") (VInt 1) (VInt 1)] (one_building [])
  = Ok {| j := j (one_building [("uprn", VList [VStr "U1"])]);
          epsg := Some TARGET_CRS |}.
Proof. reflexivity. Qed.

Example scenario_B :
  main ring_check (fun _ _ p => p) in_bounding_box
    [mkAddressRow (VStr "U2") (VInt 5) (VInt 5)] (one_building [])
  = Ok {| j := j (one_building [("uprn", VList [])]);
          epsg := Some TARGET_CRS |}.
Proof. reflexivity. Qed.

Example scenario_order :
  main ring_check (fun _ _ p => p) in_bounding_box
    [mkAddressRow (VStr "P1") (VInt 1) (VInt 1);
     mkAddressRow (VStr "Q") (VInt 5) (VInt 1);
     mkAddressRow (VStr "P2") (VInt 1) (VInt 1);
     mkAddressRow (VStr "P3") (VInt 1) (VInt 1)]
    (one_building [("name", VStr "hall")])
  = Ok {| j := j (one_building [("name", VStr "hall");
                                ("uprn", VList [VStr "P1"; VStr "P2"; VStr "P3"])]);
          epsg := Some TARGET_CRS |}.
Proof. reflexivity. Qed.

(** A ring of two vertices reaches the constructor, which refuses it. *)
Example scenario_short_ring :
  get_exterior_ring ring_check (VList square) (VList [VList [VInt 0; VInt 1]])
  = Raise (ValueError "A ring needs at least 3 coordinates: "
             (VList [VList [VInt 0; VInt 0]; VList [VInt 0; VInt 2]])).
Proof. reflexivity. Qed.
